(** * networking-bgpvpn: the BGP VPN connection store and the dashboard's
      association reconciliation

    Two source files are embedded here:
    - [networking_bgpvpn/neutron/db/bgpvpn_db.py], the SQLAlchemy-backed
      mixin [BGPVPNPluginDb] (module [Db]);
    - [bgpvpn_dashboard/dashboards/project/bgpvpn/workflows.py], the Horizon
      workflow [UpdateBgpVpnAssociations] (module [Dashboard]).

    Python dictionaries are finite maps from strings to dynamically typed
    values, exceptions are an explicit error type, and the SQLAlchemy session
    and the dashboard's REST client are explicit states threaded through
    the calls. *)

From Stdlib Require Import Ascii.
From stdpp Require Import gmap strings list fin_maps.

(** ** Python values and strings *)

(** The Python values that flow through the two files: [None], booleans,
    strings and lists of strings. *)
Inductive pyval : Type :=
  | PNone
  | PBool (b : bool)
  | PStr (s : string)
  | PList (l : list string).

Global Instance pyval_eq_dec : EqDecision pyval.
Proof. solve_decision. Defined.

(** Python truthiness, as used by [if not x]. *)
Definition truthy (v : pyval) : bool :=
  match v with
  | PNone => false
  | PBool b => b
  | PStr "" => false
  | PStr _ => true
  | PList [] => false
  | PList _ => true
  end.

(** [sep.join(l)] *)
Fixpoint str_join (sep : string) (l : list string) : string :=
  match l with
  | [] => ""
  | [x] => x
  | x :: rest => x +:+ sep +:+ str_join sep rest
  end.

(** [s.split(c)] for a one-character separator: always at least one field,
    and [n] separators give [n + 1] fields. *)
Fixpoint str_split (c : ascii) (s : string) : list string :=
  match s with
  | "" => [""]
  | String a s' =>
      if Ascii.eqb a c then "" :: str_split c s'
      else match str_split c s' with
           | f :: fs => String a f :: fs
           | [] => [String a ""]
           end
  end.

(** Iterating a Python string yields its one-character substrings. *)
Fixpoint str_chars (s : string) : list string :=
  match s with
  | "" => []
  | String a s' => String a "" :: str_chars s'
  end.

(** [c in s] for a character [c]. *)
Fixpoint str_contains (c : ascii) (s : string) : bool :=
  match s with
  | "" => false
  | String a s' => Ascii.eqb a c || str_contains c s'
  end.

(** [s.count(c)] for a character [c]. *)
Fixpoint str_count (c : ascii) (s : string) : nat :=
  match s with
  | "" => 0
  | String a s' => (if Ascii.eqb a c then 1 else 0) + str_count c s'
  end.

Definition comma : ascii := ","%char.

Definition comma_free (s : string) : Prop := str_contains comma s = false.

(** ** Results and exceptions *)

(** A call returns a value or raises an exception of type [E]. *)
Inductive result (E A : Type) : Type :=
  | Ok (a : A)
  | Err (e : E).
Global Arguments Ok {E A} a.
Global Arguments Err {E A} e.

Global Instance result_ret {E} : MRet (result E) := λ A a, Ok a.
Global Instance result_bind {E} : MBind (result E) := λ A B k r,
  match r with
  | Ok a => k a
  | Err e => Err e
  end.

(** ** The connection store: [bgpvpn_db.py] *)

Module Db.

(** The exceptions that the store and the library calls it makes can raise. *)
Inductive exn : Type :=
  | KeyError (key : string)
  | TypeError
  | AttributeError
  | NoResultFound
  | MultipleResultsFound
  | AdminRequired
  | BGPVPNConnectionNotFound (conn_id : string)
  | BGPVPNConnectionMissingRouteTarget.

Global Instance db_exn_eq_dec : EqDecision exn.
Proof. solve_decision. Defined.

Abbreviation res := (result exn).

(** [','.join(v)]: a list or a string is iterated, anything else is not
    iterable. *)
Definition py_join_comma (v : pyval) : res string :=
  match v with
  | PList l => Ok (str_join "," l)
  | PStr s => Ok (str_join "," (str_chars s))
  | PNone | PBool _ => Err TypeError
  end.

(** [v.split(',')]: only strings have the method. *)
Definition py_split_comma (v : pyval) : res (list string) :=
  match v with
  | PStr s => Ok (str_split comma s)
  | _ => Err AttributeError
  end.

(** [_rtrd_list2str]: "Format Route Target list to string". *)
Definition _rtrd_list2str (list : pyval) : res string :=
  if negb (truthy list) then Ok ""
  else py_join_comma list.

(** [_rtrd_str2list]: "Format Route Target string to list". *)
Definition _rtrd_str2list (str : pyval) : res (list string) :=
  if negb (truthy str) then Ok []
  else py_split_comma str.

(** *** Dictionaries, rows and the session *)

(** [d[k]] on a dictionary. *)
Definition dict_get (d : gmap string pyval) (k : string) : res pyval :=
  match d !! k with
  | Some v => Ok v
  | None => Err (KeyError k)
  end.

(** [r[k]] on a [BGPVPNConnection] row: the model base class answers it with
    [getattr], and a column that was never set reads as [None]. *)
Definition row_get (r : gmap string pyval) (k : string) : pyval :=
  default PNone (r !! k).

(** [row.update(values)] of the model base class: [setattr] for every item. *)
Definition row_update (values r : gmap string pyval) : gmap string pyval :=
  values ∪ r.

(** The request context: who calls. *)
Record context : Type := Context {
  is_admin : bool;
  tenant_id : string
}.

(** The session is the table [bgpvpn_connections]; a row object is known by
    its position in it. Every operation is a function of the table that
    returns a result or an exception, and the table afterwards. *)
Definition M (A : Type) : Type :=
  list (gmap string pyval) → res A * list (gmap string pyval).

Global Instance M_ret : MRet M := λ A a st, (Ok a, st).
Global Instance M_bind : MBind M := λ A B k m st,
  match m st with
  | (Ok a, st') => k a st'
  | (Err e, st') => (Err e, st')
  end.

Definition raise {A} (e : exn) : M A := λ st, (Err e, st).

Definition lift {A} (r : res A) : M A := λ st, (r, st).

(** [try: m except e: raise e'] *)
Definition try_except {A} (m : M A) (e e' : exn) : M A := λ st,
  match m st with
  | (Err x, st') => if decide (x = e) then (Err e', st') else (Err x, st')
  | ok => ok
  end.

(** [with context.session.begin(subtransactions=True): m]: an exception
    that leaves the block rolls the table back. *)
Definition with_transaction {A} (m : M A) : M A := λ st,
  match m st with
  | (Err e, _) => (Err e, st)
  | ok => ok
  end.

(** [context.session.add(row)] *)
Definition session_add (r : gmap string pyval) : M unit := λ st,
  (Ok (), st ++ [r]).

(** [context.session.delete(row)] of the row object at position [i]. *)
Definition session_delete (i : nat) : M unit := λ st,
  (Ok (), delete i st).

(** Attribute writes to the row object at position [i]. *)
Definition session_update (i : nat) (values : gmap string pyval) : M unit :=
  λ st, (Ok (), alter (row_update values) i st).

(** The row object at position [i]. *)
Definition session_row (i : nat) : M (gmap string pyval) := λ st,
  (Ok (default ∅ (st !! i)), st).

(** *** What the mixin inherits from [CommonDbMixin]

    [_get_by_id], [_get_tenant_id_for_create] and [_fields] are Neutron's.
    The mixin relies on [_get_by_id] raising SQLAlchemy's [NoResultFound]
    when no row is found: [_get_bgpvpn_connection] catches just that. *)

(** [_model_query]: a caller that is not admin sees its tenant's rows. *)
Definition visible (ctx : context) (r : gmap string pyval) : bool :=
  is_admin ctx || bool_decide (row_get r "tenant_id" = PStr (tenant_id ctx)).

Definition selects (ctx : context) (id : string) (r : gmap string pyval)
  : bool :=
  visible ctx r && bool_decide (row_get r "id" = PStr id).

(** The positions, counted from [i], of the rows that satisfy [p]. *)
Fixpoint positions (p : gmap string pyval → bool)
    (st : list (gmap string pyval)) (i : nat) : list nat :=
  match st with
  | [] => []
  | r :: st' =>
      if p r then i :: positions p st' (S i) else positions p st' (S i)
  end.

(** [_get_by_id]: [query.filter(model.id == id).one()]. *)
Definition _get_by_id (ctx : context) (id : string) : M nat := λ st,
  match positions (selects ctx id) st 0 with
  | [] => (Err NoResultFound, st)
  | [i] => (Ok i, st)
  | _ => (Err MultipleResultsFound, st)
  end.

(** [_get_tenant_id_for_create] *)
Definition _get_tenant_id_for_create (ctx : context)
    (resource : gmap string pyval) : res pyval :=
  match resource !! "tenant_id" with
  | Some t =>
      if is_admin ctx then Ok t
      else if decide (t ≠ PStr (tenant_id ctx)) then Err AdminRequired
      else Ok (PStr (tenant_id ctx))
  | None => Ok (PStr (tenant_id ctx))
  end.

(** [_fields]: project on [fields] when some are asked for. *)
Definition _fields (resource : gmap string pyval)
    (fields : option (list string)) : gmap string pyval :=
  match fields with
  | Some (f :: fs) => filter (λ kv, kv.1 ∈ f :: fs) resource
  | _ => resource
  end.

(** *** [BGPVPNPluginDb] *)

Definition _make_bgpvpn_connection_dict (bgpvpn_connection : gmap string pyval)
    (fields : option (list string)) : res (gmap string pyval) :=
  rt ← _rtrd_str2list (row_get bgpvpn_connection "route_targets");
  i_rt ← _rtrd_str2list (row_get bgpvpn_connection "import_targets");
  e_rt ← _rtrd_str2list (row_get bgpvpn_connection "export_targets");
  rd ← _rtrd_str2list (row_get bgpvpn_connection "route_distinguishers");
  let res : gmap string pyval :=
    <["id" := row_get bgpvpn_connection "id"]>
    (<["tenant_id" := row_get bgpvpn_connection "tenant_id"]>
    (<["network_id" := row_get bgpvpn_connection "network_id"]>
    (<["name" := row_get bgpvpn_connection "name"]>
    (<["type" := row_get bgpvpn_connection "type"]>
    (<["route_targets" := PList rt]>
    (<["import_targets" := PList i_rt]>
    (<["export_targets" := PList e_rt]>
    (<["route_distinguishers" := PList rd]>
    (<["auto_aggregate" := row_get bgpvpn_connection "auto_aggregate"]>
     ∅))))))))) in
  Ok (_fields res fields).

(** [create_bgpvpn_connection]; [uuid] is what [uuidutils.generate_uuid()]
    answers in this call. *)
Definition create_bgpvpn_connection (uuid : string) (ctx : context)
    (bgpvpn_connection : gmap string (gmap string pyval))
  : M (gmap string pyval) :=
  match bgpvpn_connection !! "bgpvpn_connection" with
  | None => raise (KeyError "bgpvpn_connection")
  | Some bgpvpn_conn =>
      route_targets ← lift (dict_get bgpvpn_conn "route_targets");
      if negb (truthy route_targets)
      then raise BGPVPNConnectionMissingRouteTarget
      else
        rt ← lift (_rtrd_list2str route_targets);
        i_rt ← lift (dict_get bgpvpn_conn "import_targets"
                     ≫= _rtrd_list2str);
        e_rt ← lift (dict_get bgpvpn_conn "export_targets"
                     ≫= _rtrd_list2str);
        rd ← lift (_rtrd_list2str
                     (default (PStr "")
                        (bgpvpn_conn !! "route_distinguishers")));
        tenant ← lift (_get_tenant_id_for_create ctx bgpvpn_conn);
        bgpvpn_conn_db ← with_transaction (
          name ← lift (dict_get bgpvpn_conn "name");
          type ← lift (dict_get bgpvpn_conn "type");
          network_id ← lift (dict_get bgpvpn_conn "network_id");
          auto_aggregate ← lift (dict_get bgpvpn_conn "auto_aggregate");
          let bgpvpn_conn_db : gmap string pyval :=
            <["id" := PStr uuid]>
            (<["tenant_id" := tenant]>
            (<["name" := name]>
            (<["type" := type]>
            (<["route_targets" := PStr rt]>
            (<["import_targets" := PStr i_rt]>
            (<["export_targets" := PStr e_rt]>
            (<["route_distinguishers" := PStr rd]>
            (<["network_id" := network_id]>
            (<["auto_aggregate" := auto_aggregate]> ∅))))))))) in
          _ ← session_add bgpvpn_conn_db;
          mret bgpvpn_conn_db);
        lift (_make_bgpvpn_connection_dict bgpvpn_conn_db None)
  end.

Definition _get_bgpvpn_connection (ctx : context) (id : string) : M nat :=
  try_except (_get_by_id ctx id) NoResultFound (BGPVPNConnectionNotFound id).

Definition get_bgpvpn_connection (ctx : context) (id : string)
    (fields : option (list string)) : M (gmap string pyval) :=
  bgpvpn_connection_db ← _get_bgpvpn_connection ctx id;
  row ← session_row bgpvpn_connection_db;
  lift (_make_bgpvpn_connection_dict row fields).

(** The [if key in bgpvpn_conn] blocks of [update_bgpvpn_connection]:
    the list under [key] is replaced by its string. *)
Definition format_key (key : string) (bgpvpn_conn : gmap string pyval)
  : res (gmap string pyval) :=
  match bgpvpn_conn !! key with
  | Some v =>
      s ← _rtrd_list2str v;
      Ok (<[key := PStr s]> bgpvpn_conn)
  | None => Ok bgpvpn_conn
  end.

(** "Format Route Target lists to string": the four blocks in a row. *)
Definition format_route_targets (bgpvpn_conn : gmap string pyval)
  : res (gmap string pyval) :=
  bgpvpn_conn ← format_key "route_targets" bgpvpn_conn;
  bgpvpn_conn ← format_key "import_targets" bgpvpn_conn;
  bgpvpn_conn ← format_key "export_targets" bgpvpn_conn;
  format_key "route_distinguishers" bgpvpn_conn.

Definition update_bgpvpn_connection (ctx : context) (id : string)
    (bgpvpn_connection : gmap string (gmap string pyval))
  : M (gmap string pyval) :=
  match bgpvpn_connection !! "bgpvpn_connection" with
  | None => raise (KeyError "bgpvpn_connection")
  | Some bgpvpn_conn =>
      let fields : option (list string) := None in
      bgpvpn_connection_db ← with_transaction (
        bgpvpn_connection_db ← _get_bgpvpn_connection ctx id;
        _ ← (if decide (bgpvpn_conn ≠ ∅) then
               bgpvpn_conn ← lift (format_route_targets bgpvpn_conn);
               session_update bgpvpn_connection_db bgpvpn_conn
             else mret () : M unit);
        mret bgpvpn_connection_db);
      row ← session_row bgpvpn_connection_db;
      lift (_make_bgpvpn_connection_dict row fields)
  end.

Definition delete_bgpvpn_connection (ctx : context) (id : string)
  : M (gmap string pyval) :=
  with_transaction (
    bgpvpn_connection_db ← _get_by_id ctx id;
    row ← session_row bgpvpn_connection_db;
    _ ← session_delete bgpvpn_connection_db;
    mret row).

(** The columns that hold a formatted list. *)
Definition list_columns : list string :=
  ["route_targets"; "import_targets"; "export_targets";
   "route_distinguishers"].

(** What the formatting block of [k] does to the dictionary [d]: [d'] has
    the string of the list under [k], or still no [k]. *)
Definition formatted (k : string) (d d' : gmap string pyval) : Prop :=
  match d !! k with
  | Some v => ∃ s, _rtrd_list2str v = Ok s ∧ d' !! k = Some (PStr s)
  | None => d' !! k = None
  end.

(** *** An example table *)

Definition example_ctx : context := Context false "tenant-1".

Definition example_request : gmap string (gmap string pyval) :=
  {["bgpvpn_connection" :=
     <["name" := PStr "blue"]>
     (<["type" := PStr "l3"]>
     (<["route_targets" := PList ["65000:1"; "65000:2"]]>
     (<["import_targets" := PList []]>
     (<["export_targets" := PList ["65000:9"]]>
     (<["network_id" := PNone]>
     (<["auto_aggregate" := PBool false]> ∅))))))]}.

Definition example_table : list (gmap string pyval) :=
  (create_bgpvpn_connection "uuid-1" example_ctx example_request []).2.

Definition example_update : gmap string pyval :=
  <["name" := PStr "green"]>
  (<["import_targets" := PList ["65000:3"; "65000:4"]]> ∅).

Definition example_dict : gmap string pyval :=
  <["id" := PStr "uuid-1"]>
  (<["tenant_id" := PStr "tenant-1"]>
  (<["network_id" := PNone]>
  (<["name" := PStr "blue"]>
  (<["type" := PStr "l3"]>
  (<["route_targets" := PList ["65000:1"; "65000:2"]]>
  (<["import_targets" := PList []]>
  (<["export_targets" := PList ["65000:9"]]>
  (<["route_distinguishers" := PList []]>
  (<["auto_aggregate" := PBool false]> ∅))))))))).

(** *** The listings *)

(** [[f(x) for x in l]]: the first exception ends the comprehension. *)
Fixpoint for_list {A C} (f : A → res C) (l : list A) : res (list C) :=
  match l with
  | [] => Ok []
  | x :: l' => y ← f x; ys ← for_list f l'; Ok (y :: ys)
  end.

(** [session.query(BGPVPNConnection)] narrowed to the rows that satisfy
    [p]: the session's own query, which [_model_query] does not scope. A
    column compared with [None] is tested for being null, so [p] compares
    Python values. *)
Definition session_query (p : gmap string pyval → bool)
  : M (list (gmap string pyval)) := λ st,
  (Ok (filter (λ r, p r = true) st), st).

(** [try: rows = m except exc.NoResultFound: return] followed by
    [return k rows]: the bare [return] answers [None]. *)
Definition try_or_return_None {A C} (m : M A) (k : A → M (option C))
  : M (option C) := λ st,
  match m st with
  | (Ok a, st') => k a st'
  | (Err e, st') =>
      if decide (e = NoResultFound) then (Ok None, st') else (Err e, st')
  end.

Definition _get_bgpvpn_connections_for_tenant (tenant_id : pyval)
    (fields : option (list string))
  : M (option (list (gmap string pyval))) :=
  try_or_return_None
    (session_query (λ r, bool_decide (row_get r "tenant_id" = tenant_id)))
    (λ bgpvpn_connections,
       lift (l ← for_list (λ bvc, _make_bgpvpn_connection_dict bvc fields)
                   bgpvpn_connections;
             Ok (Some l))).

Definition find_bgpvpn_connections_for_network (ctx : context)
    (network_id : pyval) : M (option (list (gmap string pyval))) :=
  try_or_return_None
    (session_query (λ r, bool_decide (row_get r "network_id" = network_id)))
    (λ bgpvpn_connections,
       lift (l ← for_list (λ bvc, _make_bgpvpn_connection_dict bvc None)
                   bgpvpn_connections;
             Ok (Some l))).

(** [_get_collection] of [CommonDbMixin], without sorting and paging, which
    [get_bgpvpn_connections] does not ask for: the rows that the caller sees
    and that the filters keep, each through [dict_func]. What the filters
    keep is the parameter [keeps]; no filter keeps every row. *)
Definition _get_collection
    (ctx : context)
    (dict_func : gmap string pyval → option (list string) →
                 res (gmap string pyval))
    (keeps : gmap string pyval → bool) (fields : option (list string))
  : M (list (gmap string pyval)) := λ st,
  (for_list (λ c, dict_func c fields)
     (filter (λ r, visible ctx r && keeps r = true) st), st).

Definition get_bgpvpn_connections (ctx : context)
    (keeps : gmap string pyval → bool) (fields : option (list string))
  : M (list (gmap string pyval)) :=
  _get_collection ctx _make_bgpvpn_connection_dict keeps fields.

(** The lists that come back as they were stored: no comma in their
    strings, and not the list that holds only the empty string. *)
Definition storable (l : list string) : Prop :=
  Forall comma_free l ∧ l ≠ [""].

(** A row whose dictionary can be made: its four list columns hold strings
    or nothing. *)
Definition readable (r : gmap string pyval) : Prop :=
  ∃ out, _make_bgpvpn_connection_dict r None = Ok out.

End Db.


(** ** The association workflow: [workflows.py] *)

Module Dashboard.

(** [association_type] is one of the strings ['network'] and ['router']. *)
Inductive association_type : Type :=
  | network
  | router.

Global Instance association_type_eq_dec : EqDecision association_type.
Proof. solve_decision. Defined.

(** ['%s_id' % association_type] *)
Definition id_attr (ty : association_type) : string :=
  match ty with
  | network => "network_id"
  | router => "router_id"
  end.

(** What the dashboard or one of its collaborators can raise. [ApiError]
    stands for any exception of the REST client or of
    [horizon.exceptions.handle]; [AssociationsTypeNotSupported] is
    [Exception(_('Associations type is not supported'))]. *)
Inductive exn : Type :=
  | KeyError (key : string)
  | ApiError (reason : string)
  | AssociationsTypeNotSupported.

Global Instance dashboard_exn_eq_dec : EqDecision exn.
Proof. solve_decision. Defined.

Abbreviation res := (result exn).

(** An association as the list call of its type returns it: [id] and the
    attribute [network_id] or [router_id], here [resource_id]. *)
Record association : Type := Association {
  id : string;
  resource_id : string
}.

(** The messages handed to [exceptions.handle]. *)
Inductive message : Type :=
  | unable_to_retrieve_associations (ty : association_type)
  | unable_to_associate (ty : association_type) (resource : string) (e : exn)
  | unable_to_disassociate (ty : association_type).

(** The calls that leave the workflow. *)
Inductive call : Type :=
  | association_list_call (ty : association_type) (bgpvpn_id : string)
  | association_create_call (ty : association_type) (bgpvpn_id : string)
      (params : gmap string string)
  | association_delete_call (ty : association_type) (asso_id : string)
      (bgpvpn_id : string)
  | exceptions_handle_call (msg : message).

Global Instance message_eq_dec : EqDecision message.
Proof. solve_decision. Defined.
Global Instance call_eq_dec : EqDecision call.
Proof. solve_decision. Defined.

Definition is_create (c : call) : bool :=
  match c with association_create_call _ _ _ => true | _ => false end.
Definition is_delete (c : call) : bool :=
  match c with association_delete_call _ _ _ => true | _ => false end.
Definition is_list (c : call) : bool :=
  match c with association_list_call _ _ => true | _ => false end.

(** The collaborators: [bgpvpn_api.<type>_association_list], [_create] and
    [_delete] of the module [bgpvpn_dashboard.api.bgpvpn], and
    [horizon.exceptions.handle]. The workflow only calls them, so they are
    parameters here: each acts on a state [B] of its own and returns or
    raises, and what is proved holds for all of them. *)
Class Api (B : Type) : Type := {
  association_list :
    association_type → string → B → res (list association) * B;
  association_create :
    association_type → string → gmap string string → B → res unit * B;
  association_delete :
    association_type → string → string → B → res unit * B;
  exceptions_handle : message → B → res unit * B
}.

(** The workflow's [data]. Both steps depend on [bgpvpn_id] and [name], so
    these are there; each step contributes its own association key, which
    may be absent. *)
Record data : Type := Data {
  bgpvpn_id : string;
  name : string;
  networks_association : option (list string);
  routers_association : option (list string)
}.

(** [data["%ss_association" % association_type]] *)
Definition data_associations (d : data) (ty : association_type)
  : res (list string) :=
  match ty with
  | network =>
      from_option Ok (Err (KeyError "networks_association"))
        (networks_association d)
  | router =>
      from_option Ok (Err (KeyError "routers_association"))
        (routers_association d)
  end.

(** [list(set(old_associations) - set(associations))] *)
Definition to_remove_associations (old_associations associations : list string)
  : list string :=
  elements ((list_to_set old_associations : gset string)
            ∖ list_to_set associations).

(** [list(set(associations) - set(old_associations))] *)
Definition to_add_associations (old_associations associations : list string)
  : list string :=
  elements ((list_to_set associations : gset string)
            ∖ list_to_set old_associations).

Section workflow.
Context {B : Type} `{!Api B}.

(** The collaborators' state and the calls made so far. *)
Record world : Type := World {
  backend : B;
  calls : list call
}.

Definition M (A : Type) : Type := world → res A * world.

Global Instance M_ret : MRet M := λ A a w, (Ok a, w).
Global Instance M_bind : MBind M := λ A B k m w,
  match m w with
  | (Ok a, w') => k a w'
  | (Err e, w') => (Err e, w')
  end.

Definition raise {A} (e : exn) : M A := λ w, (Err e, w).

Definition lift {A} (r : res A) : M A := λ w, (r, w).

(** A call [c] to the collaborator [f]. *)
Definition invoke {A} (c : call) (f : B → res A * B) : M A := λ w,
  let '(r, b) := f (backend w) in
  (r, World b (calls w ++ [c])).

Definition list_method (ty : association_type) (bgpvpn : string)
  : M (list association) :=
  invoke (association_list_call ty bgpvpn) (association_list ty bgpvpn).

Definition create_asso (ty : association_type) (bgpvpn : string)
    (params : gmap string string) : M unit :=
  invoke (association_create_call ty bgpvpn params)
         (association_create ty bgpvpn params).

Definition delete_method (ty : association_type) (asso bgpvpn : string)
  : M unit :=
  invoke (association_delete_call ty asso bgpvpn)
         (association_delete ty asso bgpvpn).

(** [try: m except Exception as e: exceptions.handle(request, msg e); raise].
    When [exceptions.handle] raises, that exception leaves the block;
    when it returns, [raise] raises [e] again. *)
Definition try_handle {A} (m : M A) (msg : exn → message) : M A := λ w,
  match m w with
  | (Err e, w') =>
      match invoke (exceptions_handle_call (msg e))
                   (exceptions_handle (msg e)) w' with
      | (Ok _, w'') => (Err e, w'')
      | (Err e', w'') => (Err e', w'')
      end
  | ok => ok
  end.

(** [for x in l: body x] *)
Fixpoint for_each {A} (l : list A) (body : A → M unit) : M unit :=
  match l with
  | [] => mret ()
  | x :: l' => _ ← body x; for_each l' body
  end.

Definition _set_params (d : data) (ty : association_type) (resource : string)
  : gmap string string :=
  <[id_attr ty := resource]> ∅.

(** The body of [for resource in to_add_associations]. *)
Definition add_resource (d : data) (ty : association_type)
    (resource : string) : M unit :=
  try_handle
    (let params := _set_params d ty resource in
     create_asso ty (bgpvpn_id d) params)
    (λ e, unable_to_associate ty resource e).

(** The body of [for resource in to_remove_associations]. *)
Definition remove_resource (d : data) (ty : association_type)
    (resource : string) : M unit :=
  try_handle
    (asso_list ← list_method ty (bgpvpn_id d);
     for_each asso_list (λ association,
       if decide (resource_id association = resource)
       then delete_method ty (id association) (bgpvpn_id d)
       else mret ()))
    (λ _, unable_to_disassociate ty).

Definition _handle_type (d : data) (ty : association_type) : M unit :=
  associations ← lift (data_associations d ty);
  old_associations ← try_handle
    (l ← list_method ty (bgpvpn_id d);
     mret (resource_id <$> l))
    (λ _, unable_to_retrieve_associations ty);
  let to_remove_associations :=
    to_remove_associations old_associations associations in
  let to_add_associations :=
    to_add_associations old_associations associations in
  _ ← (if bool_decide (0 < length to_add_associations)
       then for_each to_add_associations (add_resource d ty)
       else mret () : M unit);
  if bool_decide (0 < length to_remove_associations)
  then for_each to_remove_associations (remove_resource d ty)
  else mret ().

(** The [try] block of [handle]. *)
Definition handle_try (d : data) : M unit :=
  let action := false in
  action ← (if networks_association d is Some _
            then _ ← _handle_type d network; mret true
            else mret action : M bool);
  action ← (if routers_association d is Some _
            then _ ← _handle_type d router; mret true
            else mret action : M bool);
  if negb action then raise AssociationsTypeNotSupported else mret ().

(** [handle]: [except Exception: return False], else [return True]. *)
Definition handle (d : data) : M bool := λ w,
  match handle_try d w with
  | (Err _, w') => (Ok false, w')
  | (Ok _, w') => (Ok true, w')
  end.

(** The calls that [_handle_type] makes for one resource or association. *)
Definition list_call_of (d : data) (ty : association_type) : call :=
  association_list_call ty (bgpvpn_id d).

Definition create_call_of (d : data) (ty : association_type)
    (resource : string) : call :=
  association_create_call ty (bgpvpn_id d) (_set_params d ty resource).

(** [m] adds to the trace only calls that satisfy [P]. *)
Definition emits {A} (m : M A) (P : call → Prop) : Prop :=
  ∀ w, ∃ t, calls (m w).2 = calls w ++ t ∧ Forall P t.

(** The calls made between the worlds [w] and [w']. *)
Definition new_calls (w w' : world) : list call :=
  drop (length (calls w)) (calls w').

End workflow.

(** How many calls of a kind a trace has. *)
Definition count (p : call → bool) (t : list call) : nat :=
  length (filter (λ c, p c = true) t).

Global Arguments world : clear implicits.
Global Arguments M : clear implicits.

(** *** A scripted collaborator

    Its state holds the answers still to give: each list, create or delete
    call takes the next answer of its kind, and answers with the empty list
    or with success once they are used up. [exceptions.handle] returns. *)
Record script : Type := Script {
  lists : list (res (list association));
  creates : list (res unit);
  deletes : list (res unit)
}.

Global Instance script_api : Api script := {|
  association_list _ _ s :=
    (default (Ok []) (head (lists s)),
     Script (tail (lists s)) (creates s) (deletes s));
  association_create _ _ _ s :=
    (default (Ok ()) (head (creates s)),
     Script (lists s) (tail (creates s)) (deletes s));
  association_delete _ _ _ s :=
    (default (Ok ()) (head (deletes s)),
     Script (lists s) (creates s) (tail (deletes s)));
  exceptions_handle _ s := (Ok (), s)
|}.

(** *** An obliging collaborator

    Nothing is associated and every call succeeds. *)
Global Instance obliging_api : Api unit := {|
  association_list _ _ s := (Ok [], s);
  association_create _ _ _ s := (Ok (), s);
  association_delete _ _ _ s := (Ok (), s);
  exceptions_handle _ s := (Ok (), s)
|}.

(** *** Example worlds *)

Definition example_data : data :=
  Data "vpn-1" "blue" (Some ["A"; "B"]) None.

(** No association yet, and every call succeeds. *)
Definition quiet_world : world script := World (Script [] [] []) [].

(** No association yet, and the first create call is refused. *)
Definition refusing_world : world script :=
  World (Script [] [Err (ApiError "refused")] []) [].

(** [C] is associated when the reconciliation starts and is gone when the
    removal loop lists the associations again. *)
Definition vanishing_world : world script :=
  World (Script [Ok [Association "asso-c" "C"]; Ok []] [] []) [].

(** [A] and [B] are associated already. *)
Definition settled_world : world script :=
  World (Script [Ok [Association "asso-a" "A"; Association "asso-b" "B"]]
           [] []) [].

(** *** What a call is about *)

Definition is_handle (c : call) : bool :=
  match c with exceptions_handle_call _ => true | _ => false end.

(** The association type that a message names. *)
Definition message_type (msg : message) : association_type :=
  match msg with
  | unable_to_retrieve_associations ty => ty
  | unable_to_associate ty _ _ => ty
  | unable_to_disassociate ty => ty
  end.

(** The call is about associations of type [ty] of the BGP VPN of [d], or
    reports an error about that type. *)
Definition concerns (d : data) (ty : association_type) (c : call) : Prop :=
  match c with
  | association_list_call ty' bgpvpn => ty' = ty ∧ bgpvpn = bgpvpn_id d
  | association_create_call ty' bgpvpn params =>
      ty' = ty ∧ bgpvpn = bgpvpn_id d
      ∧ ∃ resource, params = <[id_attr ty := resource]> ∅
  | association_delete_call ty' _ bgpvpn => ty' = ty ∧ bgpvpn = bgpvpn_id d
  | exceptions_handle_call msg => message_type msg = ty
  end.

(** The delete call for one association. *)
Definition delete_call_of (d : data) (ty : association_type)
    (a : association) : call :=
  association_delete_call ty (id a) (bgpvpn_id d).

(** The associations of a list that are for [resource]. *)
Definition matching (resource : string) (asso_list : list association)
  : list association :=
  filter (λ a, resource_id a = resource) asso_list.

Section reporting.
Context {B : Type} `{!Api B}.

(** [m] reports its exceptions: when it returns it has not called
    [exceptions.handle], and when it raises, its last call, and only that
    one, is a call of [exceptions.handle]. *)
Definition reports {A} (m : M B A) : Prop :=
  ∀ w, ∃ t, calls (m w).2 = calls w ++ t ∧
    match (m w).1 with
    | Ok _ => Forall (λ c, is_handle c = false) t
    | Err _ => ∃ t0 msg, t = t0 ++ [exceptions_handle_call msg]
                 ∧ Forall (λ c, is_handle c = false) t0
    end.

End reporting.

End Dashboard.

(** ** The router association wizard: [RouterAssociation] in [workflows.py] *)

Module RouterWorkflow.

Inductive exn : Type :=
  | KeyError (key : string)
  | TypeError
  | ApiError (reason : string).

Global Instance router_exn_eq_dec : EqDecision exn.
Proof. solve_decision. Defined.

Abbreviation res := (result exn).

(** The wizard's [context], with the keys that its steps depend on and
    contribute. [with_parameters] is read for its truth value only. *)
Record context : Type := Context {
  bgpvpn_id : string;
  name : string;
  router_resource : string;
  with_parameters : bool;
  advertise_extra_routes : bool
}.

(** [msg_error + ": %s" % str(e)] with
    [msg_error = _("Unable to associate router %s") % router_id]. *)
Inductive message : Type :=
  | unable_to_associate_router (router_id : string) (e : exn).

Inductive call : Type :=
  | router_association_create_call (bgpvpn_id router_id : string)
  | router_association_update_call (bgpvpn_id asso_id : string)
      (advertise_extra_routes : bool)
  | router_association_delete_call (asso_id bgpvpn_id : string)
  | exceptions_handle_call (msg : message).

Definition is_create (c : call) : bool :=
  match c with router_association_create_call _ _ => true | _ => false end.
Definition is_update (c : call) : bool :=
  match c with router_association_update_call _ _ _ => true | _ => false end.
Definition is_delete (c : call) : bool :=
  match c with router_association_delete_call _ _ => true | _ => false end.
Definition is_handle (c : call) : bool :=
  match c with exceptions_handle_call _ => true | _ => false end.

(** The collaborators, as parameters: the three calls of
    [bgpvpn_dashboard.api.bgpvpn] and [horizon.exceptions.handle]. The create
    call returns a dictionary of dictionaries. *)
Class Api (B : Type) : Type := {
  router_association_create :
    string → string → B → res (gmap string (gmap string string)) * B;
  router_association_update : string → string → bool → B → res unit * B;
  router_association_delete : string → string → B → res unit * B;
  exceptions_handle : message → B → res unit * B
}.

Section workflow.
Context {B : Type} `{!Api B}.

Record world : Type := World {
  backend : B;
  calls : list call
}.

Definition M (A : Type) : Type := world → res A * world.

Global Instance router_M_ret : MRet M := λ A a w, (Ok a, w).
Global Instance router_M_bind : MBind M := λ A B k m w,
  match m w with
  | (Ok a, w') => k a w'
  | (Err e, w') => (Err e, w')
  end.

Definition raise {A} (e : exn) : M A := λ w, (Err e, w).

Definition invoke {A} (c : call) (f : B → res A * B) : M A := λ w,
  let '(r, b) := f (backend w) in
  (r, World b (calls w ++ [c])).

(** [d[k1][k2]] *)
Definition lookup2 (d : gmap string (gmap string string)) (k1 k2 : string)
  : M string :=
  match d !! k1 with
  | None => raise (KeyError k1)
  | Some d1 =>
      match d1 !! k2 with
      | None => raise (KeyError k2)
      | Some v => mret v
      end
  end.

(** [RouterAssociation.handle]. The second [try] has the clause
    [except exceptions as e], and [exceptions] is the module
    [horizon.exceptions], not an exception class. Such a clause catches
    nothing: Python 3 raises [TypeError] when it matches an exception
    against it, Python 2 finds no match and lets the exception go on. So an
    exception of the update call leaves [handle] in both, as [TypeError]
    when [py3] and as it is otherwise, and the body of the clause, which
    would delete the association, report and return [False], never runs. *)
Definition handle (py3 : bool) (context : context) : M bool := λ w,
  let bgpvpn_id := bgpvpn_id context in
  let router_id := router_resource context in
  match invoke (router_association_create_call bgpvpn_id router_id)
               (router_association_create bgpvpn_id router_id) w with
  | (Err e, w') =>
      match invoke (exceptions_handle_call
                      (unable_to_associate_router router_id e))
                   (exceptions_handle
                      (unable_to_associate_router router_id e)) w' with
      | (Ok _, w'') => (Ok false, w'')
      | (Err e', w'') => (Err e', w'')
      end
  | (Ok router_association, w') =>
      if negb (with_parameters context) then (Ok true, w')
      else
        match lookup2 router_association "router_association" "id" w' with
        | (Err e, w'') => (Err e, w'')
        | (Ok asso_id, w'') =>
            match invoke (router_association_update_call bgpvpn_id asso_id
                            (advertise_extra_routes context))
                         (router_association_update bgpvpn_id asso_id
                            (advertise_extra_routes context)) w'' with
            | (Ok _, w3) => (Ok true, w3)
            | (Err e, w3) => (Err (if py3 then TypeError else e), w3)
            end
        end
  end.

(** The calls made between the worlds [w] and [w']. *)
Definition new_calls (w w' : world) : list call :=
  drop (length (calls w)) (calls w').

End workflow.

Global Arguments world : clear implicits.
Global Arguments M : clear implicits.

(** A collaborator that follows a script, for examples: what the create
    call and the update call answer. *)
Record script : Type := Script {
  create_answer : res (gmap string (gmap string string));
  update_answer : res unit
}.

Global Instance script_api : Api script := {|
  router_association_create _ _ s := (create_answer s, s);
  router_association_update _ _ _ s := (update_answer s, s);
  router_association_delete _ _ s := (Ok (), s);
  exceptions_handle _ s := (Ok (), s)
|}.

Definition example_context : context :=
  Context "vpn-1" "blue" "router-1" true true.

Definition created : gmap string (gmap string string) :=
  {["router_association" := {["id" := "asso-1"]}]}.

End RouterWorkflow.


(** * Properties of the connection store *)

Module DbProofs.
Import Db.

(** ** Joining and splitting *)

Lemma str_split_comma_free s :
  comma_free s → str_split comma s = [s].
Proof.
  unfold comma_free. induction s as [|a s IH]; simpl; [done|].
  destruct (Ascii.eqb a comma); [done|]. simpl.
  intros Hs. by rewrite IH.
Qed.

Lemma str_split_app s rest :
  comma_free s →
  str_split comma (s +:+ "," +:+ rest) = s :: str_split comma rest.
Proof.
  unfold comma_free. induction s as [|a s IH]; simpl; [done|].
  destruct (Ascii.eqb a comma); [done|]. simpl.
  intros Hs. by rewrite IH.
Qed.

Lemma str_split_join l :
  l ≠ [] → Forall comma_free l → str_split comma (str_join "," l) = l.
Proof.
  induction l as [|x l IH]; [done|]. intros _ Hl.
  apply Forall_cons in Hl as [Hx Hl].
  destruct l as [|y l].
  - simpl. by apply str_split_comma_free.
  - change (str_join "," (x :: y :: l))
      with (x +:+ "," +:+ str_join "," (y :: l)).
    rewrite str_split_app by done. by rewrite IH.
Qed.

Lemma str_join_empty l :
  str_join "," l = "" → l = [] ∨ l = [""].
Proof.
  destruct l as [|x [|y l]]; simpl; [by left|intros ->; by right|].
  destruct x; simpl; discriminate.
Qed.

Lemma truthy_PStr s : truthy (PStr s) = bool_decide (s ≠ "").
Proof. by destruct s. Qed.

Lemma truthy_PList l : truthy (PList l) = bool_decide (l ≠ []).
Proof. by destruct l. Qed.

(** ** Route-target lists and their strings *)

Example rtrd_list2str_example :
  _rtrd_list2str (PList ["65000:1"; "65000:2"]) = Ok "65000:1,65000:2"
  ∧ _rtrd_str2list (PStr "65000:1,65000:2") = Ok ["65000:1"; "65000:2"]
  ∧ _rtrd_str2list (PStr ",") = Ok [""; ""].
Proof. by repeat split. Qed.

(** C3, as the code has it: for every list of comma-free strings other than
    the one-element list that holds the empty string, [_rtrd_str2list]
    gives back the list that [_rtrd_list2str] formatted; the empty list is
    formatted as the empty string and the empty string is read as the
    empty list. *)
Theorem rtrd_roundtrip (l : list string) :
  Forall comma_free l →
  l ≠ [""] →
  (s ← _rtrd_list2str (PList l); _rtrd_str2list (PStr s)) = Ok l
  ∧ _rtrd_list2str (PList []) = Ok ""
  ∧ _rtrd_str2list (PStr "") = Ok [].
Proof.
  intros Hl Hne. split; [|done].
  unfold _rtrd_list2str. rewrite truthy_PList.
  case_bool_decide as Hnil; simpl.
  - unfold _rtrd_str2list. rewrite truthy_PStr.
    case_bool_decide as Hs; simpl.
    + f_equal. by apply str_split_join.
    + by destruct (str_join_empty _ Hs).
  - by subst.
Qed.

Lemma rtrd_roundtrip_witness :
  (s ← _rtrd_list2str (PList ["65000:1"; "65000:2"]); _rtrd_str2list (PStr s))
  = Ok ["65000:1"; "65000:2"]
  ∧ _rtrd_list2str (PList []) = Ok ""
  ∧ _rtrd_str2list (PStr "") = Ok [].
Proof.
  apply (rtrd_roundtrip ["65000:1"; "65000:2"]).
  - repeat constructor.
  - discriminate.
Defined.

(** C3, as claimed, fails on the list that holds only the empty string: it
    is formatted as the empty string, which is read as the empty list. *)
Lemma rtrd_roundtrip_empty_string :
  Forall comma_free [""]
  ∧ _rtrd_list2str (PList [""]) = Ok ""
  ∧ (s ← _rtrd_list2str (PList [""]); _rtrd_str2list (PStr s)) = Ok []
  ∧ (s ← _rtrd_list2str (PList [""]); _rtrd_str2list (PStr s)) ≠ Ok [""].
Proof. repeat split; [by repeat constructor | discriminate]. Qed.

(** ** Creation *)

Example create_example :
  create_bgpvpn_connection "uuid-1" example_ctx example_request []
  = (Ok example_dict, example_table)
  ∧ length example_table = 1
  ∧ get_bgpvpn_connection example_ctx "uuid-1" None example_table
    = (Ok example_dict, example_table).
Proof. repeat split; vm_compute; reflexivity. Qed.

(** C2: creating a connection whose [route_targets] is the empty list raises
    [BGPVPNConnectionMissingRouteTarget] and leaves the table as it was,
    whatever the other fields, the caller and the table are. *)
Theorem create_without_route_targets (uuid : string) (ctx : context)
    (bgpvpn_conn : gmap string pyval) (st : list (gmap string pyval)) :
  create_bgpvpn_connection uuid ctx
    {["bgpvpn_connection" := <["route_targets" := PList []]> bgpvpn_conn]} st
  = (Err BGPVPNConnectionMissingRouteTarget, st).
Proof.
  unfold create_bgpvpn_connection. rewrite lookup_singleton_eq.
  unfold dict_get. by rewrite lookup_insert_eq.
Qed.

(** ** Looking a row up *)

Lemma positions_lookup p st n i :
  i ∈ positions p st n →
  n ≤ i ∧ ∃ r, st !! (i - n) = Some r ∧ p r = true.
Proof.
  revert n. induction st as [|r st IH]; simpl; intros n Hi.
  - by apply elem_of_nil in Hi.
  - destruct (p r) eqn:Hp.
    + apply elem_of_cons in Hi as [->|Hi].
      * split; [lia|]. exists r. by rewrite Nat.sub_diag.
      * apply IH in Hi as (Hle & r' & Hr' & Hp'). split; [lia|].
        exists r'. split; [|done].
        by replace (i - n) with (S (i - S n)) by lia.
    + apply IH in Hi as (Hle & r' & Hr' & Hp'). split; [lia|].
      exists r'. split; [|done].
      by replace (i - n) with (S (i - S n)) by lia.
Qed.

Lemma positions_alter p f st n i :
  (∀ r, st !! i = Some r → p (f r) = p r) →
  positions p (alter f i st) n = positions p st n.
Proof.
  revert n i. induction st as [|r st IH]; intros n i Hf; [done|].
  destruct i as [|i]; simpl.
  - by rewrite (Hf r).
  - pose proof (IH (S n) i Hf) as IH'.
    change (alter f i st) with (list_alter f i st) in IH'.
    by rewrite IH'.
Qed.

Lemma _get_by_id_none ctx id st :
  positions (selects ctx id) st 0 = [] →
  _get_by_id ctx id st = (Err NoResultFound, st).
Proof. unfold _get_by_id. by intros ->. Qed.

Lemma _get_by_id_one ctx id st i :
  positions (selects ctx id) st 0 = [i] →
  _get_by_id ctx id st = (Ok i, st)
  ∧ ∃ r, st !! i = Some r ∧ selects ctx id r = true.
Proof.
  intros Hpos. unfold _get_by_id. rewrite Hpos. split; [done|].
  destruct (positions_lookup (selects ctx id) st 0 i) as (_ & r & Hr & Hp).
  { rewrite Hpos. apply elem_of_cons. by left. }
  exists r. by rewrite Nat.sub_0_r in Hr.
Qed.

(** What a successful [get_bgpvpn_connection] tells about the table. *)
Lemma get_bgpvpn_connection_Ok ctx id fields st out :
  (get_bgpvpn_connection ctx id fields st).1 = Ok out →
  ∃ i r, positions (selects ctx id) st 0 = [i]
    ∧ st !! i = Some r
    ∧ _make_bgpvpn_connection_dict r fields = Ok out.
Proof.
  unfold get_bgpvpn_connection, _get_bgpvpn_connection, try_except,
    _get_by_id, mbind, M_bind.
  destruct (positions (selects ctx id) st 0) as [|i [|j l]] eqn:Hpos;
    simpl; [done| |done].
  destruct (_get_by_id_one ctx id st i Hpos) as (_ & r & Hr & _).
  unfold session_row, lift. rewrite Hr. simpl. intros Hout.
  by exists i, r.
Qed.

Lemma get_bgpvpn_connection_one ctx id fields st i r :
  positions (selects ctx id) st 0 = [i] →
  st !! i = Some r →
  get_bgpvpn_connection ctx id fields st
  = (_make_bgpvpn_connection_dict r fields, st).
Proof.
  intros Hpos Hr.
  unfold get_bgpvpn_connection, _get_bgpvpn_connection, try_except,
    _get_by_id, mbind, M_bind.
  rewrite Hpos. simpl. unfold session_row, lift. by rewrite Hr.
Qed.

(** ** Deletion *)

(** C6, on the code: for an id that no row has, [delete_bgpvpn_connection]
    raises SQLAlchemy's [NoResultFound], where [get_bgpvpn_connection]
    raises [BGPVPNConnectionNotFound]; the table is as it was. *)
Theorem delete_unknown_id (ctx : context) (id : string)
    (st : list (gmap string pyval)) :
  positions (selects ctx id) st 0 = [] →
  delete_bgpvpn_connection ctx id st = (Err NoResultFound, st)
  ∧ get_bgpvpn_connection ctx id None st
    = (Err (BGPVPNConnectionNotFound id), st).
Proof.
  intros Hpos. split.
  - unfold delete_bgpvpn_connection, with_transaction, mbind, M_bind.
    by rewrite _get_by_id_none.
  - unfold get_bgpvpn_connection, _get_bgpvpn_connection, try_except,
      mbind, M_bind.
    rewrite _get_by_id_none by done. by rewrite decide_True.
Qed.

Lemma delete_unknown_id_witness :
  delete_bgpvpn_connection (Context false "t1") "x" []
  = (Err NoResultFound, [])
  ∧ get_bgpvpn_connection (Context false "t1") "x" None []
    = (Err (BGPVPNConnectionNotFound "x"), []).
Proof. by apply (delete_unknown_id (Context false "t1") "x" []). Defined.

(** On an id that one row has, [delete_bgpvpn_connection] returns that row
    and takes it out of the table. *)
Lemma delete_known_id ctx id st i r :
  positions (selects ctx id) st 0 = [i] →
  st !! i = Some r →
  delete_bgpvpn_connection ctx id st = (Ok r, delete i st).
Proof.
  intros Hpos Hr.
  unfold delete_bgpvpn_connection, with_transaction, mbind, M_bind.
  destruct (_get_by_id_one ctx id st i Hpos) as (-> & _).
  unfold session_row. by rewrite Hr.
Qed.

(** ** Update *)

Lemma _rtrd_list2str_Ok v :
  v ≠ PBool true → ∃ s, _rtrd_list2str v = Ok s.
Proof.
  unfold _rtrd_list2str.
  destruct v as [|[]|[]|[]]; intros Hv; simpl; eauto; done.
Qed.

Lemma _rtrd_str2list_PStr s : ∃ l, _rtrd_str2list (PStr s) = Ok l.
Proof.
  unfold _rtrd_str2list. destruct (truthy (PStr s)); simpl; eauto.
Qed.

Lemma format_key_spec k d :
  d !! k ≠ Some (PBool true) →
  ∃ d', format_key k d = Ok d'
    ∧ formatted k d d'
    ∧ ∀ k', k' ≠ k → d' !! k' = d !! k'.
Proof.
  intros Hk. unfold format_key, formatted.
  destruct (d !! k) as [v|] eqn:Hv.
  - destruct (_rtrd_list2str_Ok v) as [s Hs]; [congruence|].
    rewrite Hs. simpl. eexists. split; [done|]. split.
    + exists s. by rewrite lookup_insert_eq.
    + intros k' Hne. by rewrite lookup_insert_ne.
  - exists d. by rewrite Hv.
Qed.

Lemma formatted_proper k d1 d1' d2 d2' :
  d1 !! k = d2 !! k → d1' !! k = d2' !! k →
  formatted k d1 d1' → formatted k d2 d2'.
Proof. unfold formatted. by intros <- <-. Qed.

Lemma format_route_targets_spec d :
  (∀ k, k ∈ list_columns → d !! k ≠ Some (PBool true)) →
  ∃ d', format_route_targets d = Ok d'
    ∧ (∀ k, k ∈ list_columns → formatted k d d')
    ∧ (∀ k, k ∉ list_columns → d' !! k = d !! k).
Proof.
  intros Hd. unfold format_route_targets.
  destruct (format_key_spec "route_targets" d) as (d1 & -> & F1 & O1).
  { apply Hd. set_solver. }
  destruct (format_key_spec "import_targets" d1) as (d2 & E2 & F2 & O2).
  { rewrite O1 by done. apply Hd. set_solver. }
  destruct (format_key_spec "export_targets" d2) as (d3 & E3 & F3 & O3).
  { rewrite O2, O1 by done. apply Hd. set_solver. }
  destruct (format_key_spec "route_distinguishers" d3) as (d4 & E4 & F4 & O4).
  { rewrite O3, O2, O1 by done. apply Hd. set_solver. }
  simpl. rewrite E2. simpl. rewrite E3. simpl. rewrite E4.
  exists d4. split; [done|]. split.
  - intros k Hk. unfold list_columns in Hk.
    repeat (apply elem_of_cons in Hk as [->|Hk]);
      [| | | |by apply elem_of_nil in Hk].
    + eapply formatted_proper; [| |exact F1]; [done|].
      by rewrite O4, O3, O2.
    + eapply formatted_proper; [| |exact F2]; [by rewrite O1|].
      by rewrite O4, O3.
    + eapply formatted_proper; [| |exact F3]; [by rewrite O2, O1|].
      by rewrite O4.
    + eapply formatted_proper; [| |exact F4]; [by rewrite O3, O2, O1|done].
  - intros k Hk. unfold list_columns in Hk.
    rewrite O4, O3, O2, O1; [done|set_solver..].
Qed.

Lemma formatted_None k d d' :
  formatted k d d' → d !! k = None → d' !! k = None.
Proof. unfold formatted. intros H Hk. by rewrite Hk in H. Qed.

Lemma formatted_readable k d d' :
  formatted k d d' → is_Some (d !! k) →
  ∃ s, d' !! k = Some (PStr s).
Proof.
  unfold formatted. intros H [v Hv]. rewrite Hv in H.
  destruct H as (s & _ & ?). eauto.
Qed.

(** The dictionary of a row is made when its four list columns can be
    read. *)
Lemma _make_bgpvpn_connection_dict_Ok r fields :
  (∀ k, k ∈ list_columns → ∃ l, _rtrd_str2list (row_get r k) = Ok l) ↔
  ∃ out, _make_bgpvpn_connection_dict r fields = Ok out.
Proof.
  unfold _make_bgpvpn_connection_dict. split.
  - intros Hr.
    destruct (Hr "route_targets") as [l1 ->]; [set_solver|].
    destruct (Hr "import_targets") as [l2 ->]; [set_solver|].
    destruct (Hr "export_targets") as [l3 ->]; [set_solver|].
    destruct (Hr "route_distinguishers") as [l4 ->]; [set_solver|].
    simpl. eauto.
  - intros [out Hout] k Hk.
    destruct (_rtrd_str2list (row_get r "route_targets")) as [l1|] eqn:E1;
      [|done].
    destruct (_rtrd_str2list (row_get r "import_targets")) as [l2|] eqn:E2;
      [|done].
    destruct (_rtrd_str2list (row_get r "export_targets")) as [l3|] eqn:E3;
      [|done].
    destruct (_rtrd_str2list (row_get r "route_distinguishers"))
      as [l4|] eqn:E4; [|done].
    unfold list_columns in Hk.
    repeat (apply elem_of_cons in Hk as [->|Hk]); eauto.
    by apply elem_of_nil in Hk.
Qed.

(** Two rows that agree on a column give dictionaries that agree on it. *)
Lemma _make_bgpvpn_connection_dict_frame r r' out out' k :
  _make_bgpvpn_connection_dict r None = Ok out →
  _make_bgpvpn_connection_dict r' None = Ok out' →
  r' !! k = r !! k →
  out' !! k = out !! k.
Proof.
  unfold _make_bgpvpn_connection_dict, _fields, row_get.
  destruct (_rtrd_str2list (default PNone (r !! "route_targets")))
    as [l1|] eqn:E1; [|done].
  destruct (_rtrd_str2list (default PNone (r !! "import_targets")))
    as [l2|] eqn:E2; [|done].
  destruct (_rtrd_str2list (default PNone (r !! "export_targets")))
    as [l3|] eqn:E3; [|done].
  destruct (_rtrd_str2list (default PNone (r !! "route_distinguishers")))
    as [l4|] eqn:E4; [|done].
  destruct (_rtrd_str2list (default PNone (r' !! "route_targets")))
    as [l1'|] eqn:E1'; [|done].
  destruct (_rtrd_str2list (default PNone (r' !! "import_targets")))
    as [l2'|] eqn:E2'; [|done].
  destruct (_rtrd_str2list (default PNone (r' !! "export_targets")))
    as [l3'|] eqn:E3'; [|done].
  destruct (_rtrd_str2list (default PNone (r' !! "route_distinguishers")))
    as [l4'|] eqn:E4'; [|done].
  simpl. intros [= <-] [= <-] Hk.
  rewrite !lookup_insert, !lookup_empty.
  repeat case_decide; subst; try done; rewrite Hk in *; congruence.
Qed.

Lemma row_update_lookup_None d' r k :
  d' !! k = None → row_update d' r !! k = r !! k.
Proof. intros Hk. unfold row_update. by rewrite lookup_union_r. Qed.

Lemma row_update_lookup_Some d' r k v :
  d' !! k = Some v → row_update d' r !! k = Some v.
Proof. intros Hk. unfold row_update. by apply lookup_union_Some_l. Qed.

Lemma row_update_empty r : row_update ∅ r = r.
Proof.
  apply map_eq. intros k. by apply row_update_lookup_None, lookup_empty.
Qed.

Lemma updated_row_readable d d' r out :
  (∀ k, k ∈ list_columns → formatted k d d') →
  _make_bgpvpn_connection_dict r None = Ok out →
  ∃ out', _make_bgpvpn_connection_dict (row_update d' r) None = Ok out'.
Proof.
  intros HF Hout. apply _make_bgpvpn_connection_dict_Ok. intros k Hk.
  unfold row_get. destruct (d !! k) as [v|] eqn:Hv.
  - destruct (formatted_readable k d d') as [s Hs]; [by apply HF|by eauto|].
    rewrite (row_update_lookup_Some _ _ _ _ Hs). simpl.
    apply _rtrd_str2list_PStr.
  - rewrite row_update_lookup_None
      by (eapply formatted_None; [by apply HF|done]).
    by eapply (_make_bgpvpn_connection_dict_Ok r None); [eauto|].
Qed.

(** C5: [update_bgpvpn_connection] on an id that no row has raises
    [BGPVPNConnectionNotFound] and leaves the table as it was. On a
    connection that [get_bgpvpn_connection] returns, with a partial
    dictionary [d] whose list fields can be formatted, it formats the list
    fields that [d] has, writes the keys of [d] to the row and leaves every
    other column of the row as it was; a [get_bgpvpn_connection] that
    follows returns what the update returned, which agrees with the
    connection before the update on every field that [d] does not have. *)
Theorem update_partial (ctx : context) (id : string)
    (d : gmap string pyval) (st : list (gmap string pyval)) :
  (positions (selects ctx id) st 0 = [] →
   update_bgpvpn_connection ctx id {["bgpvpn_connection" := d]} st
   = (Err (BGPVPNConnectionNotFound id), st))
  ∧ ∀ out,
    (get_bgpvpn_connection ctx id None st).1 = Ok out →
    (∀ k, k ∈ list_columns → d !! k ≠ Some (PBool true)) →
    ∃ i r d' out',
      st !! i = Some r
      ∧ format_route_targets d = Ok d'
      ∧ (∀ k, k ∈ list_columns → formatted k d d')
      ∧ (∀ k, k ∉ list_columns → d' !! k = d !! k)
      ∧ update_bgpvpn_connection ctx id {["bgpvpn_connection" := d]} st
        = (Ok out', alter (row_update d') i st)
      ∧ alter (row_update d') i st !! i = Some (row_update d' r)
      ∧ (∀ k v, d' !! k = Some v → row_update d' r !! k = Some v)
      ∧ (∀ k, d !! k = None → row_update d' r !! k = r !! k)
      ∧ (d !! "id" = None → d !! "tenant_id" = None →
         get_bgpvpn_connection ctx id None (alter (row_update d') i st)
         = (Ok out', alter (row_update d') i st)
         ∧ ∀ k, d !! k = None → out' !! k = out !! k).
Proof.
  split.
  { intros Hpos. unfold update_bgpvpn_connection.
    rewrite lookup_singleton_eq.
    unfold with_transaction, mbind, M_bind, _get_bgpvpn_connection,
      try_except.
    rewrite _get_by_id_none by done. by rewrite decide_True. }
  intros out Hget Hd.
  destruct (get_bgpvpn_connection_Ok _ _ _ _ _ Hget)
    as (i & r & Hpos & Hr & Hout).
  destruct (format_route_targets_spec d Hd) as (d' & Hfmt & HF & HO).
  destruct (updated_row_readable d d' r out HF Hout) as [out' Hout'].
  assert (Hnone : ∀ k, d !! k = None → d' !! k = None).
  { intros k Hk. destruct (decide (k ∈ list_columns)) as [Hin|Hin].
    - eapply formatted_None; [by apply HF|done].
    - by rewrite HO. }
  assert (Hi : alter (row_update d') i st !! i = Some (row_update d' r)).
  { by rewrite list_lookup_alter_eq, Hr. }
  exists i, r, d', out'. do 4 (split; [done|]).
  split; [|split; [done|split; [|split]]].
  - unfold update_bgpvpn_connection. rewrite lookup_singleton_eq.
    unfold with_transaction, mbind, M_bind, _get_bgpvpn_connection,
      try_except.
    destruct (_get_by_id_one ctx id st i Hpos) as (-> & _).
    case_decide as Hne.
    + unfold lift at 1. rewrite Hfmt. unfold session_update, session_row.
      simpl. rewrite Hi. simpl. unfold lift. by rewrite Hout'.
    + subst d.
      assert (d' = ∅) as -> by (by injection Hfmt).
      rewrite list_alter_id in Hi |- * by apply row_update_empty.
      unfold mret, M_ret, session_row. simpl. rewrite Hi. simpl.
      unfold lift. by rewrite Hout'.
  - intros k v. apply row_update_lookup_Some.
  - intros k Hk. by apply row_update_lookup_None, Hnone.
  - intros Hid Htenant.
    assert (Hsel : ∀ r0, st !! i = Some r0 →
              selects ctx id (row_update d' r0) = selects ctx id r0).
    { intros r0 _. unfold selects, visible, row_get.
      by rewrite !row_update_lookup_None by (by apply Hnone). }
    split.
    + rewrite (get_bgpvpn_connection_one ctx id None _ i (row_update d' r));
        [by rewrite Hout'| |done].
      by rewrite positions_alter.
    + intros k Hk.
      apply (_make_bgpvpn_connection_dict_frame r (row_update d' r));
        [done..|].
      by apply row_update_lookup_None, Hnone.
Qed.

Lemma update_partial_witness :
  update_bgpvpn_connection example_ctx "uuid-2"
    {["bgpvpn_connection" := example_update]} example_table
  = (Err (BGPVPNConnectionNotFound "uuid-2"), example_table)
  ∧ ∃ i r d' out',
      example_table !! i = Some r
      ∧ format_route_targets example_update = Ok d'
      ∧ (∀ k, k ∈ list_columns → formatted k example_update d')
      ∧ (∀ k, k ∉ list_columns → d' !! k = example_update !! k)
      ∧ update_bgpvpn_connection example_ctx "uuid-1"
          {["bgpvpn_connection" := example_update]} example_table
        = (Ok out', alter (row_update d') i example_table)
      ∧ alter (row_update d') i example_table !! i = Some (row_update d' r)
      ∧ (∀ k v, d' !! k = Some v → row_update d' r !! k = Some v)
      ∧ (∀ k, example_update !! k = None → row_update d' r !! k = r !! k)
      ∧ (example_update !! "id" = None →
         example_update !! "tenant_id" = None →
         get_bgpvpn_connection example_ctx "uuid-1" None
           (alter (row_update d') i example_table)
         = (Ok out', alter (row_update d') i example_table)
         ∧ ∀ k, example_update !! k = None →
                out' !! k = example_dict !! k).
Proof.
  split.
  - apply (update_partial example_ctx "uuid-2" example_update example_table).
    reflexivity.
  - apply (update_partial example_ctx "uuid-1" example_update example_table).
    + reflexivity.
    + intros k Hk. unfold list_columns in Hk.
      repeat (apply elem_of_cons in Hk as [->|Hk]); try discriminate.
      by apply elem_of_nil in Hk.
Defined.

End DbProofs.

(** * Properties of the association workflow *)

Module DashboardProofs.
Import Dashboard.

Section workflow.
Context {B : Type} `{!Api B}.
Implicit Types (w : world B) (d : data) (ty : association_type).

(** ** The trace only grows *)

Lemma new_calls_app w w' t : calls w' = calls w ++ t → new_calls w w' = t.
Proof. unfold new_calls. intros ->. by rewrite drop_app_length. Qed.

Lemma invoke_eq {A} c (f : B → res A * B) w r b :
  f (backend w) = (r, b) →
  invoke c f w = (r, World b (calls w ++ [c])).
Proof. unfold invoke. by intros ->. Qed.

Lemma try_handle_Ok {A} (m : M B A) msg w a w' :
  m w = (Ok a, w') → try_handle m msg w = (Ok a, w').
Proof. unfold try_handle. by intros ->. Qed.

Lemma try_handle_Err {A} (m : M B A) msg w e w' :
  m w = (Err e, w') →
  ∃ e' b, try_handle m msg w
          = (Err e', World b (calls w' ++ [exceptions_handle_call (msg e)])).
Proof.
  unfold try_handle, invoke. intros ->.
  destruct (exceptions_handle (msg e) (backend w')) as [[[]|e'] b]; eauto.
Qed.

Lemma emits_ret {A} (a : A) P : emits (mret a : M B A) P.
Proof. intros w. exists []. by rewrite app_nil_r. Qed.

Lemma emits_raise {A} e P : emits (raise e : M B A) P.
Proof. intros w. exists []. by rewrite app_nil_r. Qed.

Lemma emits_lift {A} (r : res A) P : emits (lift r : M B A) P.
Proof. intros w. exists []. by rewrite app_nil_r. Qed.

Lemma emits_invoke {A} c (f : B → res A * B) (P : call → Prop) :
  P c → emits (invoke c f) P.
Proof.
  intros Hc w. exists [c]. unfold invoke.
  destruct (f (backend w)) as [r b]. simpl. split; [done|]. by constructor.
Qed.

Lemma emits_bind {A C} (m : M B A) (k : A → M B C) P :
  emits m P → (∀ a, emits (k a) P) → emits (m ≫= k) P.
Proof.
  intros Hm Hk w. unfold mbind, M_bind.
  destruct (Hm w) as (t & Ht & HP).
  destruct (m w) as [[a|e] w']; simpl in *.
  - destruct (Hk a w') as (t' & Ht' & HP'). exists (t ++ t').
    rewrite Ht', Ht, (assoc_L (++)). split; [done|]. by apply Forall_app.
  - by exists t.
Qed.

Lemma emits_try_handle {A} (m : M B A) msg (P : call → Prop) :
  emits m P → (∀ e, P (exceptions_handle_call (msg e))) →
  emits (try_handle m msg) P.
Proof.
  intros Hm Hmsg w. destruct (Hm w) as (t & Ht & HP).
  destruct (m w) as [[a|e] w'] eqn:Hmw; simpl in *.
  - rewrite (try_handle_Ok _ _ _ _ _ Hmw). by exists t.
  - destruct (try_handle_Err _ msg _ _ _ Hmw) as (e' & b & ->). simpl.
    exists (t ++ [exceptions_handle_call (msg e)]).
    rewrite Ht, (assoc_L (++)). split; [done|].
    apply Forall_app. split; [done|]. by constructor.
Qed.

Lemma emits_for_each {A} (l : list A) (body : A → M B unit) P :
  (∀ x, emits (body x) P) → emits (for_each l body) P.
Proof.
  intros Hbody. induction l as [|x l IH]; simpl.
  - apply emits_ret.
  - apply emits_bind; [done|]. by intros [].
Qed.

(** ** The delta *)

(** C1: the removals are the current ids that are not desired, the
    additions the desired ids that are not current; they are disjoint, and
    taking the removals out of the current ids and adding the additions gives
    the desired ids. *)
Theorem delta_sets (old_associations associations : list string) :
  let current : gset string := list_to_set old_associations in
  let desired : gset string := list_to_set associations in
  let toRemove : gset string :=
    list_to_set (to_remove_associations old_associations associations) in
  let toAdd : gset string :=
    list_to_set (to_add_associations old_associations associations) in
  toRemove = current ∖ desired
  ∧ toAdd = desired ∖ current
  ∧ toAdd ## toRemove
  ∧ desired = (current ∖ toRemove) ∪ toAdd
  ∧ NoDup (to_remove_associations old_associations associations)
  ∧ NoDup (to_add_associations old_associations associations).
Proof.
  unfold to_remove_associations, to_add_associations. simpl.
  rewrite !list_to_set_elements_L.
  set (current := list_to_set old_associations : gset string).
  set (desired := list_to_set associations : gset string).
  repeat split; try apply NoDup_elements.
  - intros x. rewrite !elem_of_difference. tauto.
  - apply set_eq. intros x. rewrite elem_of_union, !elem_of_difference.
    destruct (decide (x ∈ current)), (decide (x ∈ desired)); tauto.
Qed.

Lemma delta_equal (old_associations associations : list string) :
  (list_to_set old_associations : gset string) = list_to_set associations →
  to_add_associations old_associations associations = []
  ∧ to_remove_associations old_associations associations = [].
Proof.
  intros Heq. unfold to_add_associations, to_remove_associations.
  rewrite Heq, difference_diag_L. by rewrite elements_empty.
Qed.

Lemma delta_current_empty (associations : list string) :
  to_add_associations [] associations
  = elements (list_to_set associations : gset string)
  ∧ to_remove_associations [] associations = [].
Proof.
  unfold to_add_associations, to_remove_associations. simpl.
  rewrite difference_empty_L. split; [done|].
  rewrite empty_difference_L. apply elements_empty.
Qed.

(** ** The phases of [_handle_type] *)

Lemma guard_for_each {A} (l : list A) (body : A → M B unit) :
  (if bool_decide (0 < length l) then for_each l body else mret ())
  = for_each l body.
Proof. destruct l; [done|]. rewrite bool_decide_true; [done|simpl; lia]. Qed.

Lemma fetch_Ok d ty msg w l b :
  association_list ty (bgpvpn_id d) (backend w) = (Ok l, b) →
  try_handle (l ← list_method ty (bgpvpn_id d); mret (resource_id <$> l))
    msg w
  = (Ok (resource_id <$> l), World b (calls w ++ [list_call_of d ty])).
Proof.
  intros Hl. apply try_handle_Ok. unfold mbind, M_bind, list_method.
  by rewrite (invoke_eq _ _ _ _ _ Hl).
Qed.

Lemma fetch_Err d ty msg w e b :
  association_list ty (bgpvpn_id d) (backend w) = (Err e, b) →
  ∃ e' b',
    try_handle (l ← list_method ty (bgpvpn_id d); mret (resource_id <$> l))
      msg w
    = (Err e', World b' (calls w ++ [list_call_of d ty;
                                     exceptions_handle_call (msg e)])).
Proof.
  intros Hl.
  edestruct (try_handle_Err
    (l ← list_method ty (bgpvpn_id d); mret (resource_id <$> l)) msg w)
    as (e' & b' & ->).
  { unfold mbind, M_bind, list_method. by rewrite (invoke_eq _ _ _ _ _ Hl). }
  exists e', b'. simpl. by rewrite <- (assoc_L (++)).
Qed.

Lemma add_resource_Ok d ty resource w b :
  association_create ty (bgpvpn_id d) (_set_params d ty resource) (backend w)
  = (Ok (), b) →
  add_resource d ty resource w
  = (Ok (), World b (calls w ++ [create_call_of d ty resource])).
Proof.
  intros Hc. apply try_handle_Ok. unfold create_asso.
  by rewrite (invoke_eq _ _ _ _ _ Hc).
Qed.

Lemma add_resource_Err d ty resource w e b :
  association_create ty (bgpvpn_id d) (_set_params d ty resource) (backend w)
  = (Err e, b) →
  ∃ e' b',
    add_resource d ty resource w
    = (Err e', World b' (calls w ++
         [create_call_of d ty resource;
          exceptions_handle_call (unable_to_associate ty resource e)])).
Proof.
  intros Hc. unfold add_resource.
  edestruct (try_handle_Err
    (create_asso ty (bgpvpn_id d) (_set_params d ty resource))
    (λ e, unable_to_associate ty resource e) w) as (e' & b' & ->).
  { unfold create_asso. by rewrite (invoke_eq _ _ _ _ _ Hc). }
  exists e', b'. simpl. by rewrite <- (assoc_L (++)).
Qed.

Lemma count_app p t1 t2 : count p (t1 ++ t2) = count p t1 + count p t2.
Proof. unfold count. by rewrite filter_app, length_app. Qed.

Lemma count_zero p t : Forall (λ c, p c = false) t → count p t = 0.
Proof.
  unfold count. induction 1 as [|c t Hc _ IH]; [done|].
  rewrite filter_cons_False by (by rewrite Hc). done.
Qed.

Lemma count_all p t : Forall (λ c, p c = true) t → count p t = length t.
Proof.
  unfold count. induction 1 as [|c t Hc _ IH]; [done|].
  rewrite filter_cons_True by done. simpl. by rewrite IH.
Qed.

(** The additions: no delete call, at most one create call for each
    resource, and exactly the create calls of the resources, in their order,
    when the phase returns. *)
Lemma add_phase d ty l w :
  ∃ t, calls (for_each l (add_resource d ty) w).2 = calls w ++ t
    ∧ Forall (λ c, is_delete c = false) t
    ∧ count is_create t ≤ length l
    ∧ ((for_each l (add_resource d ty) w).1 = Ok () →
       t = create_call_of d ty <$> l).
Proof.
  revert w. induction l as [|r l IH]; intros w; simpl.
  { exists []. rewrite app_nil_r. by repeat split. }
  unfold mbind, M_bind.
  destruct (association_create ty (bgpvpn_id d) (_set_params d ty r)
              (backend w)) as [[[]|e] b] eqn:Hc.
  - rewrite (add_resource_Ok _ _ _ _ _ Hc).
    destruct (IH (World b (calls w ++ [create_call_of d ty r])))
      as (t & Ht & Hdel & Hcount & HOk).
    exists (create_call_of d ty r :: t). rewrite Ht. simpl.
    rewrite <- (assoc_L (++)). split; [done|]. split; [by constructor|].
    split.
    + change (create_call_of d ty r :: t)
        with ([create_call_of d ty r] ++ t).
      rewrite count_app. unfold count at 1. simpl. lia.
    + intros H. by rewrite HOk.
  - destruct (add_resource_Err _ _ _ _ _ _ Hc) as (e' & b' & ->). simpl.
    eexists. split; [done|]. split; [by repeat constructor|].
    split; [|done]. unfold count. simpl. lia.
Qed.

Lemma add_phase_succeeds d ty l w :
  (∀ params b, (association_create ty (bgpvpn_id d) params b).1 = Ok ()) →
  (for_each l (add_resource d ty) w).1 = Ok ().
Proof.
  intros Hcreate. revert w. induction l as [|r l IH]; intros w; [done|].
  simpl. unfold mbind, M_bind.
  destruct (association_create ty (bgpvpn_id d) (_set_params d ty r)
              (backend w)) as [res b] eqn:Hc.
  pose proof (Hcreate (_set_params d ty r) (backend w)) as HOk.
  rewrite Hc in HOk. simpl in HOk. subst res.
  rewrite (add_resource_Ok _ _ _ _ _ Hc). apply IH.
Qed.

(** The removals make no create call. *)
Lemma remove_phase d ty l :
  emits (for_each l (remove_resource d ty)) (λ c, is_create c = false).
Proof.
  apply emits_for_each. intros resource. apply emits_try_handle; [|done].
  apply emits_bind; [by apply emits_invoke|]. intros asso_list.
  apply emits_for_each. intros a. case_decide.
  - by apply emits_invoke.
  - apply emits_ret.
Qed.

(** [_handle_type] once the associations are fetched. *)
Lemma _handle_type_fetched d ty w l assos b :
  data_associations d ty = Ok l →
  association_list ty (bgpvpn_id d) (backend w) = (Ok assos, b) →
  _handle_type d ty w
  = (_ ← for_each (to_add_associations (resource_id <$> assos) l)
           (add_resource d ty);
     for_each (to_remove_associations (resource_id <$> assos) l)
       (remove_resource d ty))
    (World b (calls w ++ [list_call_of d ty])).
Proof.
  intros Hl Hassos. unfold _handle_type.
  rewrite Hl. unfold mbind at 1, M_bind at 1, lift at 1.
  unfold mbind at 1, M_bind at 1.
  rewrite (fetch_Ok d ty _ w assos b Hassos).
  by rewrite !guard_for_each.
Qed.

Lemma _handle_type_fetch_Err d ty w l e b :
  data_associations d ty = Ok l →
  association_list ty (bgpvpn_id d) (backend w) = (Err e, b) →
  ∃ e' b',
    _handle_type d ty w
    = (Err e', World b' (calls w ++
         [list_call_of d ty;
          exceptions_handle_call (unable_to_retrieve_associations ty)])).
Proof.
  intros Hl Hassos. unfold _handle_type.
  rewrite Hl. unfold mbind at 1, M_bind at 1, lift at 1.
  unfold mbind at 1, M_bind at 1.
  destruct (fetch_Err d ty (λ _, unable_to_retrieve_associations ty)
              w e b Hassos) as (e' & b' & ->).
  by exists e', b'.
Qed.

Lemma _handle_type_KeyError d ty w e :
  data_associations d ty = Err e → _handle_type d ty w = (Err e, w).
Proof. intros He. unfold _handle_type. by rewrite He. Qed.

(** ** Order of the calls *)

(** C8: the calls of a reconciliation split in two parts: no delete call
    in the first, no create call in the second. When the second part is not
    empty, the first is the list call followed by the create calls of all
    the resources to add. *)
Theorem adds_before_removes (d : data) (ty : association_type)
    (w : world B) :
  ∃ adds removes,
    calls (_handle_type d ty w).2 = calls w ++ adds ++ removes
    ∧ Forall (λ c, is_delete c = false) adds
    ∧ Forall (λ c, is_create c = false) removes
    ∧ (removes ≠ [] → ∀ l assos b,
         data_associations d ty = Ok l →
         association_list ty (bgpvpn_id d) (backend w) = (Ok assos, b) →
         adds = list_call_of d ty ::
                (create_call_of d ty <$>
                 to_add_associations (resource_id <$> assos) l)).
Proof.
  destruct (data_associations d ty) as [l|e] eqn:Hl.
  2:{ rewrite (_handle_type_KeyError _ _ _ _ Hl).
      exists [], []. by rewrite !app_nil_r. }
  destruct (association_list ty (bgpvpn_id d) (backend w))
    as [[assos|e] b] eqn:Hassos.
  2:{ destruct (_handle_type_fetch_Err _ _ _ _ _ _ Hl Hassos)
        as (e' & b' & ->).
      eexists _, []. rewrite app_nil_r. split; [done|].
      split; [by repeat constructor|]. by split. }
  rewrite (_handle_type_fetched _ _ _ _ _ _ Hl Hassos).
  set (w1 := World b (calls w ++ [list_call_of d ty])).
  set (to_add := to_add_associations (resource_id <$> assos) l).
  set (to_remove := to_remove_associations (resource_id <$> assos) l).
  unfold mbind, M_bind.
  destruct (add_phase d ty to_add w1) as (t1 & Ht1 & Hdel & _ & HOk).
  destruct (for_each to_add (add_resource d ty) w1) as [[[]|e] w2];
    simpl in *.
  - destruct (remove_phase d ty to_remove w2) as (t2 & Ht2 & Hcre).
    exists (list_call_of d ty :: t1), t2.
    rewrite Ht2, Ht1. simpl. rewrite <- !(assoc_L (++)). simpl.
    split; [done|]. split; [by constructor|]. split; [done|].
    intros _ l' assos' b' [= <-] [= <- <-]. by rewrite HOk.
  - exists (list_call_of d ty :: t1), [].
    rewrite Ht1. simpl. rewrite app_nil_r, <- !(assoc_L (++)). simpl.
    split; [done|]. split; [by constructor|]. by split.
Qed.

(** ** Number of calls *)

Lemma count_create_calls d ty (l : list string) :
  count is_create (create_call_of d ty <$> l) = length l.
Proof.
  rewrite count_all; [by rewrite length_fmap|].
  apply Forall_fmap, Forall_forall. by intros.
Qed.

Lemma count_list_call d ty p :
  p (list_call_of d ty) = false → count p [list_call_of d ty] = 0.
Proof. intros Hp. apply count_zero. by repeat constructor. Qed.

(** C7, as the code has it. When the desired ids are the current ids, the
    reconciliation makes the list call and nothing else: no create call and
    no delete call. When there is no current id and there are two desired
    ids, it makes no delete call and at most two create calls: exactly two
    when it returns, and it returns when no create call raises. *)
Theorem reconcile_counts (d : data) (ty : association_type) (w : world B)
    (l : list string) (assos : list association) (b : B) :
  data_associations d ty = Ok l →
  association_list ty (bgpvpn_id d) (backend w) = (Ok assos, b) →
  let current : gset string := list_to_set (resource_id <$> assos) in
  let desired : gset string := list_to_set l in
  let t := new_calls w (_handle_type d ty w).2 in
  (desired = current →
     _handle_type d ty w = (Ok (), World b (calls w ++ [list_call_of d ty]))
     ∧ count is_create t = 0 ∧ count is_delete t = 0)
  ∧ (current = ∅ → size desired = 2 →
     count is_delete t = 0
     ∧ count is_create t ≤ 2
     ∧ ((_handle_type d ty w).1 = Ok () → count is_create t = 2)
     ∧ ((∀ params b',
           (association_create ty (bgpvpn_id d) params b').1 = Ok ()) →
        (_handle_type d ty w).1 = Ok ())).
Proof.
  intros Hl Hassos current desired t. subst t.
  rewrite (_handle_type_fetched _ _ _ _ _ _ Hl Hassos).
  split.
  - intros Heq.
    destruct (delta_equal (resource_id <$> assos) l) as [-> ->]; [done|].
    simpl. split; [done|].
    rewrite (new_calls_app _ _ [list_call_of d ty]) by done.
    by rewrite !count_list_call.
  - intros Hcur Hsize.
    assert (Hadd : length (to_add_associations (resource_id <$> assos) l)
                   = 2).
    { unfold to_add_associations. fold current desired.
      by rewrite Hcur, difference_empty_L. }
    assert (to_remove_associations (resource_id <$> assos) l = []) as ->.
    { unfold to_remove_associations. fold current desired.
      rewrite Hcur, empty_difference_L. apply elements_empty. }
    set (to_add := to_add_associations (resource_id <$> assos) l) in *.
    set (w1 := World b (calls w ++ [list_call_of d ty])).
    unfold mbind, M_bind.
    destruct (add_phase d ty to_add w1) as (t1 & Ht1 & Hdel & Hle & HOk).
    pose proof (add_phase_succeeds d ty to_add w1) as Hsucc.
    assert (Ht : new_calls w
              (match for_each to_add (add_resource d ty) w1 with
               | (Ok a, w') => for_each [] (remove_resource d ty) w'
               | (Err e, w') => (Err e, w')
               end).2 = list_call_of d ty :: t1).
    { apply new_calls_app.
      destruct (for_each to_add (add_resource d ty) w1) as [[[]|e] w2];
        simpl in *; rewrite Ht1; by rewrite <- (assoc_L (++)). }
    rewrite Ht.
    change (list_call_of d ty :: t1) with ([list_call_of d ty] ++ t1).
    rewrite !count_app, !count_list_call by done.
    rewrite (count_zero is_delete t1) by done.
    split; [done|]. split; [simpl; lia|]. split.
    + intros Hret.
      destruct (for_each to_add (add_resource d ty) w1) as [[[]|e] w2];
        simpl in *; [|done].
      rewrite (HOk eq_refl), count_create_calls, Hadd. done.
    + intros Hcreate. specialize (Hsucc Hcreate).
      by destruct (for_each to_add (add_resource d ty) w1)
        as [[[]|e] w2]; simpl in *.
Qed.

(** ** A resource that is gone *)

Lemma for_each_no_match d ty resource (asso_list : list association) w :
  (∀ a, a ∈ asso_list → resource_id a ≠ resource) →
  for_each asso_list (λ association,
    if decide (resource_id association = resource)
    then delete_method ty (id association) (bgpvpn_id d)
    else mret ()) w
  = (Ok (), w).
Proof.
  induction asso_list as [|a asso_list IH]; intros Hno; [done|].
  simpl. rewrite decide_False by (apply Hno; by left).
  unfold mbind, M_bind. simpl. apply IH.
  intros a' Ha'. apply Hno. by right.
Qed.

Lemma remove_resource_Ok d ty resource w :
  (remove_resource d ty resource w).1 = Ok () →
  ∃ t, calls (remove_resource d ty resource w).2
       = calls w ++ list_call_of d ty :: t
    ∧ Forall (λ c, is_delete c = true) t.
Proof.
  unfold remove_resource, try_handle, mbind, M_bind, list_method.
  destruct (association_list ty (bgpvpn_id d) (backend w))
    as [[asso_list|e] b] eqn:Hl; rewrite (invoke_eq _ _ _ _ _ Hl).
  2:{ unfold invoke. simpl.
      by destruct (exceptions_handle (unable_to_disassociate ty) b)
        as [[[]|e'] b']. }
  set (w1 := World b (calls w ++ [association_list_call ty (bgpvpn_id d)])).
  set (body := λ association : association,
         if decide (resource_id association = resource)
         then delete_method ty (id association) (bgpvpn_id d)
         else mret ()).
  assert (Hbody : emits (for_each asso_list body)
                    (λ c, is_delete c = true)).
  { apply emits_for_each. intros a. unfold body. case_decide.
    - by apply emits_invoke.
    - apply emits_ret. }
  destruct (Hbody w1) as (t & Ht & Hdel).
  destruct (for_each asso_list body w1) as [[[]|e] w2]; simpl in *.
  - intros _. exists t. rewrite Ht. by rewrite <- (assoc_L (++)).
  - unfold invoke.
    by destruct (exceptions_handle (unable_to_disassociate ty) (backend w2))
      as [[[]|e'] b'].
Qed.

Lemma remove_resource_starts d ty resource w :
  ∃ t, calls (remove_resource d ty resource w).2
       = calls w ++ list_call_of d ty :: t.
Proof.
  unfold remove_resource, try_handle, mbind, M_bind, list_method.
  destruct (association_list ty (bgpvpn_id d) (backend w))
    as [[asso_list|e] b] eqn:Hl; rewrite (invoke_eq _ _ _ _ _ Hl).
  2:{ unfold invoke. simpl.
      destruct (exceptions_handle (unable_to_disassociate ty) b)
        as [[[]|e'] b']; simpl; eexists; by rewrite <- !(assoc_L (++)). }
  set (w1 := World b (calls w ++ [association_list_call ty (bgpvpn_id d)])).
  set (body := λ association : association,
         if decide (resource_id association = resource)
         then delete_method ty (id association) (bgpvpn_id d)
         else mret ()).
  assert (Hbody : emits (for_each asso_list body) (λ _, True)).
  { apply emits_for_each. intros a. unfold body. case_decide.
    - by apply emits_invoke.
    - apply emits_ret. }
  destruct (Hbody w1) as (t & Ht & _).
  destruct (for_each asso_list body w1) as [[[]|e] w2]; simpl in *.
  - exists t. rewrite Ht. by rewrite <- (assoc_L (++)).
  - unfold invoke.
    destruct (exceptions_handle (unable_to_disassociate ty) (backend w2))
      as [[[]|e'] b']; simpl; rewrite Ht; eexists;
      by rewrite <- !(assoc_L (++)).
Qed.

Lemma remove_phase_lists d ty l w :
  (for_each l (remove_resource d ty) w).1 = Ok () →
  count is_list
    (new_calls w (for_each l (remove_resource d ty) w).2) = length l.
Proof.
  revert w. induction l as [|r l IH]; intros w; simpl.
  { intros _. rewrite (new_calls_app _ _ []); [done|by rewrite app_nil_r]. }
  unfold mbind, M_bind.
  pose proof (remove_resource_Ok d ty r w) as Hturn.
  destruct (remove_resource d ty r w) as [[[]|e] w1]; simpl in *; [|done].
  destruct (Hturn eq_refl) as (t & Ht & Hdel). intros HOk.
  specialize (IH w1 HOk).
  destruct (remove_phase d ty l w1) as (t' & Ht' & _).
  rewrite (new_calls_app _ _ _ Ht') in IH.
  rewrite (new_calls_app _ _ ([list_call_of d ty] ++ t ++ t')).
  - rewrite !count_app, IH.
    rewrite (count_all is_list [list_call_of d ty]) by (by repeat constructor).
    rewrite (count_zero is_list t); [done|].
    eapply Forall_impl; [exact Hdel|]. by intros [].
  - rewrite Ht', Ht. by rewrite <- !(assoc_L (++)).
Qed.

(** C10: each turn of the removal loop starts with a list call, and a
    removal loop that returns has made one list call for each resource to
    remove. When the list call of a turn returns a list in which no
    association is for the resource, the turn makes no other call, neither a
    delete call nor a call of [exceptions.handle], and returns. *)
Theorem vanished_resource (d : data) (ty : association_type)
    (resource : string) (w : world B) :
  (∃ t, calls (remove_resource d ty resource w).2
        = calls w ++ list_call_of d ty :: t)
  ∧ (∀ l, (for_each l (remove_resource d ty) w).1 = Ok () →
       count is_list
         (new_calls w (for_each l (remove_resource d ty) w).2) = length l)
  ∧ ∀ asso_list b,
      association_list ty (bgpvpn_id d) (backend w) = (Ok asso_list, b) →
      (∀ a, a ∈ asso_list → resource_id a ≠ resource) →
      remove_resource d ty resource w
      = (Ok (), World b (calls w ++ [list_call_of d ty])).
Proof.
  split; [apply remove_resource_starts|].
  split; [intros l; apply remove_phase_lists|].
  intros asso_list b Hl Hall. apply try_handle_Ok.
  unfold mbind, M_bind, list_method.
  rewrite (invoke_eq _ _ _ _ _ Hl). by apply for_each_no_match.
Qed.

(** ** [handle] *)

Lemma handle_try_unfold d w :
  handle_try d w
  = match networks_association d, routers_association d with
    | None, None => (Err AssociationsTypeNotSupported, w)
    | Some _, None => _handle_type d network w
    | None, Some _ => _handle_type d router w
    | Some _, Some _ =>
        match _handle_type d network w with
        | (Ok _, w') => _handle_type d router w'
        | (Err e, w') => (Err e, w')
        end
    end.
Proof.
  unfold handle_try, mbind, M_bind.
  destruct (networks_association d), (routers_association d); simpl;
    try done.
  - destruct (_handle_type d network w) as [[[]|e] w']; simpl; [|done].
    by destruct (_handle_type d router w') as [[[]|e] w''].
  - by destruct (_handle_type d network w) as [[[]|e] w'].
  - by destruct (_handle_type d router w) as [[[]|e] w'].
Qed.

(** C4: without [networks_association] and [routers_association] the [try]
    block of [handle] raises the unsupported-type exception, and [handle]
    reports failure without any call made. With one of them or both, [handle]
    reports success exactly when none of the reconciliations it runs raised:
    the networks first, the routers after them when the networks returned. *)
Theorem handle_result (d : data) (w : world B) :
  (networks_association d = None → routers_association d = None →
     handle_try d w = (Err AssociationsTypeNotSupported, w)
     ∧ handle d w = (Ok false, w))
  ∧ (is_Some (networks_association d) → routers_association d = None →
     ((handle d w).1 = Ok true ↔ (_handle_type d network w).1 = Ok ()))
  ∧ (networks_association d = None → is_Some (routers_association d) →
     ((handle d w).1 = Ok true ↔ (_handle_type d router w).1 = Ok ()))
  ∧ (is_Some (networks_association d) → is_Some (routers_association d) →
     ((handle d w).1 = Ok true ↔
      (_handle_type d network w).1 = Ok ()
      ∧ (_handle_type d router (_handle_type d network w).2).1 = Ok ())).
Proof.
  unfold handle. rewrite handle_try_unfold.
  split; [|split; [|split]].
  - by intros -> ->.
  - intros [l ->] ->.
    by destruct (_handle_type d network w) as [[[]|e] w'].
  - intros -> [l ->].
    by destruct (_handle_type d router w) as [[[]|e] w'].
  - intros [l ->] [l' ->].
    destruct (_handle_type d network w) as [[[]|e] w']; simpl.
    + destruct (_handle_type d router w') as [[[]|e] w'']; simpl;
        [done|]. split; [done|]. by intros [_ ?].
    + split; [done|]. by intros [? _].
Qed.

(** C9: [handle] returns a boolean for every [data] and every behaviour of
    the collaborators. It returns [False] exactly when its [try] block
    raises, whatever the exception: the one of a reconciliation, which ends
    the block at once, or the one of the unsupported-type check. *)
Theorem handle_returns (d : data) (w : world B) :
  (∃ b : bool,
     (handle d w).1 = Ok b
     ∧ (b = false ↔ ∃ e, (handle_try d w).1 = Err e))
  ∧ (handle d w).2 = (handle_try d w).2
  ∧ (∀ e, is_Some (networks_association d) →
       (_handle_type d network w).1 = Err e →
       handle d w = (Ok false, (_handle_type d network w).2))
  ∧ (∀ e, networks_association d = None →
       is_Some (routers_association d) →
       (_handle_type d router w).1 = Err e →
       handle d w = (Ok false, (_handle_type d router w).2))
  ∧ (∀ e, is_Some (networks_association d) →
       is_Some (routers_association d) →
       (_handle_type d network w).1 = Ok () →
       (_handle_type d router (_handle_type d network w).2).1 = Err e →
       handle d w
       = (Ok false, (_handle_type d router (_handle_type d network w).2).2))
  ∧ (networks_association d = None → routers_association d = None →
       handle d w = (Ok false, w)).
Proof.
  split; [|split].
  - unfold handle. destruct (handle_try d w) as [[[]|e] w']; simpl.
    + exists true. split; [done|]. split; [done|]. by intros [e ?].
    + exists false. split; [done|]. split; [by eauto|done].
  - unfold handle. by destruct (handle_try d w) as [[[]|e] w'].
  - unfold handle. rewrite handle_try_unfold.
    split; [|split; [|split]].
    + intros e [l ->] He.
      destruct (_handle_type d network w) as [[[]|e'] w']; [done|].
      by destruct (routers_association d).
    + intros e -> [l ->] He.
      by destruct (_handle_type d router w) as [[[]|e'] w'].
    + intros e [l ->] [l' ->] HOk He.
      destruct (_handle_type d network w) as [[[]|e'] w']; [|done].
      simpl in *.
      by destruct (_handle_type d router w') as [[[]|e''] w''].
    + by intros -> ->.
Qed.

End workflow.

(** ** The theorems on the scripted collaborator *)

Lemma reconcile_counts_witness :
  _handle_type example_data network settled_world
  = (Ok (), World (Script [] [] []) [list_call_of example_data network])
  ∧ count is_create
      (new_calls quiet_world
         (_handle_type example_data network quiet_world).2) = 2
  ∧ (_handle_type example_data network (World () [])).1 = Ok ().
Proof.
  split; [|split].
  - apply (reconcile_counts example_data network settled_world ["A"; "B"]
             [Association "asso-a" "A"; Association "asso-b" "B"]
             (Script [] [] [])); reflexivity.
  - apply (reconcile_counts example_data network quiet_world ["A"; "B"]
             [] (Script [] [] [])); reflexivity.
  - apply (reconcile_counts example_data network (World () []) ["A"; "B"]
             [] ()); reflexivity.
Defined.

(** C7, as claimed, fails when a create call raises: with no current id
    and the two desired ids [A] and [B], the first create call is refused
    and is the only one made. *)
Lemma reconcile_refused_create :
  association_list network "vpn-1" (backend refusing_world)
  = (Ok [], Script [] [Err (ApiError "refused")] [])
  ∧ data_associations example_data network = Ok ["A"; "B"]
  ∧ size (list_to_set ["A"; "B"] : gset string) = 2
  ∧ count is_create
      (new_calls refusing_world
         (_handle_type example_data network refusing_world).2) = 1
  ∧ count is_create
      (new_calls refusing_world
         (_handle_type example_data network refusing_world).2) ≠ 2.
Proof. repeat split; [vm_compute; reflexivity..|vm_compute; lia]. Qed.

Lemma adds_before_removes_witness :
  ∃ adds removes,
    calls (_handle_type example_data network vanishing_world).2
    = calls vanishing_world ++ adds ++ removes
    ∧ Forall (λ c, is_delete c = false) adds
    ∧ Forall (λ c, is_create c = false) removes
    ∧ (removes ≠ [] → ∀ l assos b,
         data_associations example_data network = Ok l →
         association_list network (bgpvpn_id example_data)
           (backend vanishing_world) = (Ok assos, b) →
         adds = list_call_of example_data network ::
                (create_call_of example_data network <$>
                 to_add_associations (resource_id <$> assos) l)).
Proof. apply (adds_before_removes example_data network vanishing_world). Defined.

Lemma vanished_resource_witness :
  remove_resource example_data network "C"
    (World (Script [Ok [Association "asso-d" "D"]] [] []) [])
  = (Ok (), World (Script [] [] []) [list_call_of example_data network]).
Proof.
  apply (proj2 (proj2 (vanished_resource example_data network "C"
                  (World (Script [Ok [Association "asso-d" "D"]] [] []) [])))
           [Association "asso-d" "D"] (Script [] [] [])).
  - reflexivity.
  - intros a Ha. apply elem_of_cons in Ha as [->|Ha]; [discriminate|].
    by apply elem_of_nil in Ha.
Defined.

Lemma handle_result_witness :
  handle (Data "vpn-1" "blue" None None) quiet_world
  = (Ok false, quiet_world)
  ∧ ((handle example_data quiet_world).1 = Ok true ↔
     (_handle_type example_data network quiet_world).1 = Ok ()).
Proof.
  split.
  - destruct (handle_result (Data "vpn-1" "blue" None None) quiet_world)
      as (H & _).
    apply H; reflexivity.
  - destruct (handle_result example_data quiet_world) as (_ & H & _).
    apply H; [eexists|]; reflexivity.
Defined.

Lemma handle_returns_witness :
  handle example_data refusing_world
  = (Ok false, (_handle_type example_data network refusing_world).2).
Proof.
  destruct (handle_returns example_data refusing_world)
    as (_ & _ & H & _).
  apply (H (ApiError "refused")); [eexists|]; reflexivity.
Defined.

End DashboardProofs.

(** * More on the connection store *)

Module DbMore.
Import Db DbProofs.

(** ** Commas in route targets *)

Lemma str_split_length c s : length (str_split c s) = S (str_count c s).
Proof.
  induction s as [|a s IH]; simpl; [done|].
  destruct (Ascii.eqb a c); simpl; [by rewrite IH|].
  destruct (str_split c s) as [|f fs]; simpl in *; [done|]. done.
Qed.

Lemma str_count_app c s1 s2 :
  str_count c (s1 +:+ s2) = str_count c s1 + str_count c s2.
Proof. induction s1 as [|a s1 IH]; simpl; [done|]. rewrite IH. lia. Qed.

Lemma str_count_join l :
  l ≠ [] →
  str_count comma (str_join "," l)
  = length l - 1 + sum_list (str_count comma <$> l).
Proof.
  induction l as [|x l IH]; [done|]. intros _.
  destruct l as [|y l]; [simpl; lia|].
  change (str_join "," (x :: y :: l))
    with (x +:+ "," +:+ str_join "," (y :: l)).
  rewrite !str_count_app, IH by done. simpl. lia.
Qed.

Lemma comma_free_count s : comma_free s ↔ str_count comma s = 0.
Proof.
  unfold comma_free. induction s as [|a s IH]; simpl; [done|].
  destruct (Ascii.eqb a comma); simpl; [split; [done|lia]|done].
Qed.

Lemma sum_list_zero (l : list nat) : sum_list l = 0 → Forall (λ n, n = 0) l.
Proof.
  induction l as [|n l IH]; simpl; [constructor|].
  intros Hs. constructor; [lia|]. apply IH. lia.
Qed.

(** X1: reading back the string of a list gives the list exactly when no
    string of the list has a comma and the list is not the one that holds
    only the empty string. A route target with a comma never comes back as
    it was stored. *)
Theorem rtrd_roundtrip_iff (l : list string) :
  (s ← _rtrd_list2str (PList l); _rtrd_str2list (PStr s)) = Ok l
  ↔ Forall comma_free l ∧ l ≠ [""].
Proof.
  unfold _rtrd_list2str, _rtrd_str2list.
  rewrite truthy_PList. case_bool_decide as Hnil; simpl.
  2:{ subst l. split; [by split|done]. }
  change (match str_join "," l with "" => false | String _ _ => true end)
    with (truthy (PStr (str_join "," l))).
  rewrite truthy_PStr. case_bool_decide as Hs; simpl.
  - split.
    + intros [= Hsplit].
      assert (Hlen : length (str_split comma (str_join "," l)) = length l)
        by (by rewrite Hsplit).
      rewrite str_split_length, str_count_join in Hlen by done.
      destruct l as [|x l]; [done|]. simpl in Hlen.
      split.
      * assert (Hz : sum_list (str_count comma <$> x :: l) = 0)
          by (simpl; lia).
        apply sum_list_zero, Forall_fmap in Hz.
        eapply Forall_impl; [exact Hz|]. intros s. apply comma_free_count.
      * intros [= -> ->]. by apply Hs.
    + intros [Hfree _]. f_equal. by apply str_split_join.
  - split; [intros [= <-]; done|].
    intros [_ Hne]. by destruct (str_join_empty _ Hs).
Qed.

(** ** Lookups through the rows selected *)

Lemma positions_filter p (st : list (gmap string pyval)) n :
  Forall2 (λ j r, n ≤ j ∧ st !! (j - n) = Some r)
    (positions p st n) (filter (λ r, p r = true) st).
Proof.
  revert n. induction st as [|r st IH]; intros n; simpl; [constructor|].
  assert (Hshift : Forall2 (λ j r', n ≤ j ∧ (r :: st) !! (j - n) = Some r')
            (positions p st (S n)) (filter (λ r, p r = true) st)).
  { eapply Forall2_impl; [apply IH|]. intros j r' [Hle Hr']. split; [lia|].
    by replace (j - n) with (S (j - S n)) by lia. }
  destruct (p r) eqn:Hp.
  - rewrite filter_cons_True by done. constructor; [|done].
    split; [lia|]. by rewrite Nat.sub_diag.
  - rewrite filter_cons_False by (by rewrite Hp). done.
Qed.

Lemma get_bgpvpn_connection_rows ctx id fields st :
  get_bgpvpn_connection ctx id fields st
  = (match filter (λ r, selects ctx id r = true) st with
     | [] => Err (BGPVPNConnectionNotFound id)
     | [r] => _make_bgpvpn_connection_dict r fields
     | _ => Err MultipleResultsFound
     end, st).
Proof.
  pose proof (positions_filter (selects ctx id) st 0) as HF.
  destruct (positions (selects ctx id) st 0) as [|i [|j l]] eqn:Hpos.
  - apply Forall2_nil_inv_l in HF as ->.
    unfold get_bgpvpn_connection, _get_bgpvpn_connection, try_except,
      mbind, M_bind.
    rewrite _get_by_id_none by done. by rewrite decide_True.
  - apply Forall2_cons_inv_l in HF as (r & rs & [_ Hr] & Hrs & ->).
    apply Forall2_nil_inv_l in Hrs as ->. rewrite Nat.sub_0_r in Hr.
    by apply (get_bgpvpn_connection_one ctx id fields st i r).
  - apply Forall2_cons_inv_l in HF as (r & rs & _ & Hrs & ->).
    apply Forall2_cons_inv_l in Hrs as (r' & rs' & _ & _ & ->).
    unfold get_bgpvpn_connection, _get_bgpvpn_connection, try_except,
      _get_by_id, mbind, M_bind.
    by rewrite Hpos.
Qed.

Lemma delete_bgpvpn_connection_Ok ctx id st r :
  (delete_bgpvpn_connection ctx id st).1 = Ok r →
  ∃ i, st !! i = Some r
    ∧ filter (λ r, selects ctx id r = true) st = [r]
    ∧ delete_bgpvpn_connection ctx id st = (Ok r, delete i st).
Proof.
  pose proof (positions_filter (selects ctx id) st 0) as HF.
  unfold delete_bgpvpn_connection, with_transaction, mbind, M_bind,
    _get_by_id.
  destruct (positions (selects ctx id) st 0) as [|i [|j l]] eqn:Hpos;
    simpl; [done| |done].
  apply Forall2_cons_inv_l in HF as (r' & rs & [_ Hr] & Hrs & Hfil).
  apply Forall2_nil_inv_l in Hrs as ->. rewrite Nat.sub_0_r in Hr.
  unfold session_row. rewrite Hr. simpl. intros [= <-]. by exists i.
Qed.

Lemma delete_bgpvpn_connection_Err ctx id st e :
  (delete_bgpvpn_connection ctx id st).1 = Err e →
  delete_bgpvpn_connection ctx id st = (Err e, st).
Proof.
  unfold delete_bgpvpn_connection, with_transaction, mbind, M_bind,
    _get_by_id.
  destruct (positions (selects ctx id) st 0) as [|i [|j l]]; simpl;
    by intros [= <-].
Qed.

Lemma filter_delete (P : gmap string pyval → Prop) `{!∀ r, Decision (P r)}
    (st : list (gmap string pyval)) i r :
  st !! i = Some r →
  filter P st
  = filter P (take i st) ++ (if decide (P r) then [r] else [])
    ++ filter P (drop (S i) st)
  ∧ filter P (delete i st)
    = filter P (take i st) ++ filter P (drop (S i) st).
Proof.
  intros Hr. split.
  - rewrite <- (take_drop_middle st i r Hr) at 1.
    rewrite filter_app. f_equal.
    case_decide; [by rewrite filter_cons_True|by rewrite filter_cons_False].
  - by rewrite delete_take_drop, filter_app.
Qed.

Lemma selects_id ctx id r : selects ctx id r = true → row_get r "id" = PStr id.
Proof.
  unfold selects. intros [_ H]%andb_prop. by apply bool_decide_eq_true in H.
Qed.

(** ** Deletion *)

(** X2: after a deletion that returned, the connection is gone: getting it
    raises [BGPVPNConnectionNotFound] and deleting it again raises
    [NoResultFound]. Getting any other id gives what it gave before. *)
Theorem delete_then_get (ctx : context) (id : string)
    (st : list (gmap string pyval)) (r : gmap string pyval) :
  (delete_bgpvpn_connection ctx id st).1 = Ok r →
  let st' := (delete_bgpvpn_connection ctx id st).2 in
  length st = S (length st')
  ∧ get_bgpvpn_connection ctx id None st'
    = (Err (BGPVPNConnectionNotFound id), st')
  ∧ delete_bgpvpn_connection ctx id st' = (Err NoResultFound, st')
  ∧ ∀ id' fields, id' ≠ id →
      (get_bgpvpn_connection ctx id' fields st').1
      = (get_bgpvpn_connection ctx id' fields st).1.
Proof.
  intros HOk. destruct (delete_bgpvpn_connection_Ok _ _ _ _ HOk)
    as (i & Hr & Hfil & ->). simpl.
  destruct (filter_delete (λ r, selects ctx id r = true) st i r Hr)
    as [Hst Hdel].
  assert (Hsel : selects ctx id r = true).
  { assert (r ∈ filter (λ r, selects ctx id r = true) st) as Hin
      by (rewrite Hfil; by left).
    by apply list_elem_of_filter in Hin as [? _]. }
  rewrite decide_True in Hst by done.
  assert (Hgone : filter (λ r, selects ctx id r = true) (delete i st) = []).
  { rewrite Hdel. rewrite Hfil in Hst.
    destruct (filter (λ r, selects ctx id r = true) (take i st)) as [|x xs].
    - simpl in *. by injection Hst as <-.
    - simpl in Hst. injection Hst as _ Hst. by destruct xs. }
  split; [|split; [|split]].
  - rewrite length_delete by eauto.
    assert (i < length st) by (by eapply lookup_lt_Some). lia.
  - by rewrite get_bgpvpn_connection_rows, Hgone.
  - pose proof (positions_filter (selects ctx id) (delete i st) 0) as HF.
    rewrite Hgone in HF. apply Forall2_nil_inv_r in HF.
    by apply _get_by_id_none in HF as Hget;
      unfold delete_bgpvpn_connection, with_transaction, mbind, M_bind;
      rewrite Hget.
  - intros id' fields Hne. rewrite !get_bgpvpn_connection_rows. simpl.
    destruct (filter_delete (λ r, selects ctx id' r = true) st i r Hr)
      as [Hst' Hdel'].
    rewrite decide_False in Hst'.
    + by rewrite Hdel', Hst'.
    + intros Hsel'. apply selects_id in Hsel, Hsel'. congruence.
Qed.

(** ** Creation *)

Lemma readable_of_strings r :
  (∀ k, k ∈ list_columns → ∃ s, r !! k = Some (PStr s)) → readable r.
Proof.
  intros Hr. apply (_make_bgpvpn_connection_dict_Ok r None). intros k Hk.
  destruct (Hr k Hk) as [s Hs]. unfold row_get. rewrite Hs. simpl.
  apply _rtrd_str2list_PStr.
Qed.

(** [create_bgpvpn_connection] either raises and leaves the table, or
    appends one row, with the new id and strings in its list columns. *)
Lemma create_bgpvpn_connection_cases uuid ctx req st :
  (∃ e, create_bgpvpn_connection uuid ctx req st = (Err e, st))
  ∨ ∃ out row,
      create_bgpvpn_connection uuid ctx req st = (Ok out, st ++ [row])
      ∧ row !! "id" = Some (PStr uuid)
      ∧ (∀ k, k ∈ list_columns → ∃ s, row !! k = Some (PStr s))
      ∧ _make_bgpvpn_connection_dict row None = Ok out.
Proof.
  unfold create_bgpvpn_connection.
  destruct (req !! "bgpvpn_connection") as [conn|]; [|left; by eexists].
  unfold mbind, M_bind, lift, raise, with_transaction, session_add,
    mret, M_ret.
  destruct (dict_get conn "route_targets") as [v|e]; [|left; by eexists].
  destruct (negb (truthy v)); [left; by eexists|].
  destruct (_rtrd_list2str v) as [rt|e]; [|left; by eexists].
  unfold result_bind.
  destruct (dict_get conn "import_targets") as [v2|e]; [|left; by eexists].
  destruct (_rtrd_list2str v2) as [i_rt|e]; [|left; by eexists].
  destruct (dict_get conn "export_targets") as [v3|e]; [|left; by eexists].
  destruct (_rtrd_list2str v3) as [e_rt|e]; [|left; by eexists].
  destruct (_rtrd_list2str (default (PStr "")
              (conn !! "route_distinguishers"))) as [rd|e];
    [|left; by eexists].
  destruct (_get_tenant_id_for_create ctx conn) as [tenant|e];
    [|left; by eexists].
  destruct (dict_get conn "name") as [name|e]; [|left; by eexists].
  destruct (dict_get conn "type") as [type|e]; [|left; by eexists].
  destruct (dict_get conn "network_id") as [network_id|e];
    [|left; by eexists].
  destruct (dict_get conn "auto_aggregate") as [auto_aggregate|e];
    [|left; by eexists].
  right.
  match goal with
  | |- context [st ++ [?r]] => set (row := r)
  end.
  assert (Hcols : ∀ k, k ∈ list_columns → ∃ s, row !! k = Some (PStr s)).
  { intros k Hk. unfold list_columns in Hk.
    repeat (apply elem_of_cons in Hk as [->|Hk]);
      [eexists; reflexivity..|by apply elem_of_nil in Hk]. }
  destruct (readable_of_strings row Hcols) as [out Hout].
  exists out, row. rewrite Hout. by repeat split.
Qed.

Lemma rtrd_stored l :
  storable l →
  ∃ s, _rtrd_list2str (PList l) = Ok s ∧ _rtrd_str2list (PStr s) = Ok l.
Proof.
  intros [Hfree Hne]. destruct l as [|x l]; [by exists ""|].
  exists (str_join "," (x :: l)). split; [done|].
  unfold _rtrd_str2list. rewrite truthy_PStr.
  case_bool_decide as Hs; simpl negb; cbv iota.
  - unfold py_split_comma. f_equal. by apply str_split_join.
  - by destruct (str_join_empty _ Hs).
Qed.

(** X3: a connection created from a well-formed request, with a fresh id,
    is returned as it was given, its four lists included when they are
    storable; [route_distinguishers] may be left out and is then empty. One
    row is appended, and getting the new id returns the same dictionary. *)
Theorem create_then_get (uuid : string) (ctx : context)
    (conn : gmap string pyval) (st : list (gmap string pyval))
    (rt i_rt e_rt rd : list string)
    (name type network_id auto_aggregate : pyval) :
  conn !! "route_targets" = Some (PList rt) → rt ≠ [] →
  conn !! "import_targets" = Some (PList i_rt) →
  conn !! "export_targets" = Some (PList e_rt) →
  (conn !! "route_distinguishers" = None ∧ rd = []
   ∨ conn !! "route_distinguishers" = Some (PList rd)) →
  conn !! "name" = Some name →
  conn !! "type" = Some type →
  conn !! "network_id" = Some network_id →
  conn !! "auto_aggregate" = Some auto_aggregate →
  conn !! "tenant_id" = None →
  storable rt → storable i_rt → storable e_rt → storable rd →
  positions (selects ctx uuid) st 0 = [] →
  let out : gmap string pyval :=
    <["id" := PStr uuid]>
    (<["tenant_id" := PStr (tenant_id ctx)]>
    (<["network_id" := network_id]>
    (<["name" := name]>
    (<["type" := type]>
    (<["route_targets" := PList rt]>
    (<["import_targets" := PList i_rt]>
    (<["export_targets" := PList e_rt]>
    (<["route_distinguishers" := PList rd]>
    (<["auto_aggregate" := auto_aggregate]> ∅))))))))) in
  ∃ row,
    create_bgpvpn_connection uuid ctx {["bgpvpn_connection" := conn]} st
    = (Ok out, st ++ [row])
    ∧ get_bgpvpn_connection ctx uuid None (st ++ [row])
      = (Ok out, st ++ [row]).
Proof.
  intros Hrt Hne Hirt Hert Hrd Hname Htype Hnet Hauto Htenant
    Srt Sirt Sert Srd Hfresh out.
  destruct (rtrd_stored rt Srt) as (s1 & L1 & R1).
  destruct (rtrd_stored i_rt Sirt) as (s2 & L2 & R2).
  destruct (rtrd_stored e_rt Sert) as (s3 & L3 & R3).
  assert (∃ s4, _rtrd_list2str (default (PStr "")
                   (conn !! "route_distinguishers")) = Ok s4
                ∧ _rtrd_str2list (PStr s4) = Ok rd) as (s4 & L4 & R4).
  { destruct Hrd as [[-> ->]| ->]; [by exists ""|].
    by apply rtrd_stored. }
  set (row := (<["id" := PStr uuid]>
    (<["tenant_id" := PStr (tenant_id ctx)]>
    (<["name" := name]>
    (<["type" := type]>
    (<["route_targets" := PStr s1]>
    (<["import_targets" := PStr s2]>
    (<["export_targets" := PStr s3]>
    (<["route_distinguishers" := PStr s4]>
    (<["network_id" := network_id]>
    (<["auto_aggregate" := auto_aggregate]>
       (∅ : gmap string pyval)))))))))))).
  assert (Hout : _make_bgpvpn_connection_dict row None = Ok out).
  { unfold _make_bgpvpn_connection_dict.
    change (row_get row "route_targets") with (PStr s1).
    change (row_get row "import_targets") with (PStr s2).
    change (row_get row "export_targets") with (PStr s3).
    change (row_get row "route_distinguishers") with (PStr s4).
    by rewrite R1, R2, R3, R4. }
  exists row. split.
  - unfold create_bgpvpn_connection. rewrite lookup_singleton_eq.
    unfold mbind, M_bind, lift, raise, with_transaction, session_add,
      mret, M_ret, result_bind, dict_get, _get_tenant_id_for_create.
    rewrite Hrt, Hirt, Hert, Hname, Htype, Hnet, Hauto, Htenant.
    destruct rt as [|x rt]; [done|].
    change (negb (truthy (PList (x :: rt)))) with false. cbv iota.
    rewrite L1, L2, L3, L4. f_equal. exact Hout.
  - rewrite get_bgpvpn_connection_rows, filter_app.
    pose proof (positions_filter (selects ctx uuid) st 0) as HF.
    rewrite Hfresh in HF. apply Forall2_nil_inv_l in HF as ->.
    rewrite filter_cons_True, filter_nil; [simpl; f_equal; exact Hout|].
    unfold selects, visible.
    change (row_get row "tenant_id") with (PStr (tenant_id ctx)).
    change (row_get row "id") with (PStr uuid).
    rewrite !bool_decide_true by done. by destruct (is_admin ctx).
Qed.

(** ** Update *)

Lemma update_unknown_id ctx id d st :
  positions (selects ctx id) st 0 = [] →
  update_bgpvpn_connection ctx id {["bgpvpn_connection" := d]} st
  = (Err (BGPVPNConnectionNotFound id), st).
Proof.
  intros Hpos. unfold update_bgpvpn_connection.
  rewrite lookup_singleton_eq.
  unfold with_transaction, mbind, M_bind, _get_bgpvpn_connection,
    try_except.
  rewrite _get_by_id_none by done. by rewrite decide_True.
Qed.

Lemma format_key_inv k d d' :
  format_key k d = Ok d' →
  d !! k ≠ Some (PBool true) ∧ ∀ k', k' ≠ k → d' !! k' = d !! k'.
Proof.
  unfold format_key. destruct (d !! k) as [v|] eqn:Hv.
  - destruct (_rtrd_list2str v) as [s|e] eqn:Hs; simpl; [|done].
    intros [= <-]. split.
    + intros [= ->]. done.
    + intros k' Hne. by rewrite lookup_insert_ne.
  - by intros [= <-].
Qed.

Lemma format_route_targets_Ok d d' :
  format_route_targets d = Ok d' →
  (∀ k, k ∈ list_columns → formatted k d d')
  ∧ (∀ k, k ∉ list_columns → d' !! k = d !! k).
Proof.
  intros Hfmt.
  assert (Hd : ∀ k, k ∈ list_columns → d !! k ≠ Some (PBool true)).
  { revert Hfmt. unfold format_route_targets.
    destruct (format_key "route_targets" d) as [d1|] eqn:E1; [|done].
    simpl.
    destruct (format_key "import_targets" d1) as [d2|] eqn:E2; [|done].
    simpl.
    destruct (format_key "export_targets" d2) as [d3|] eqn:E3; [|done].
    simpl. intros E4.
    apply format_key_inv in E1 as [N1 O1], E2 as [N2 O2], E3 as [N3 O3],
      E4 as [N4 O4].
    intros k Hk. unfold list_columns in Hk.
    repeat (apply elem_of_cons in Hk as [->|Hk]);
      [| | | |by apply elem_of_nil in Hk].
    - done.
    - by rewrite <- O1.
    - by rewrite <- O1, <- O2.
    - by rewrite <- O1, <- O2, <- O3. }
  destruct (format_route_targets_spec d Hd) as (d'' & Hfmt' & HF & HO).
  rewrite Hfmt in Hfmt'. by injection Hfmt' as <-.
Qed.

(** [update_bgpvpn_connection] when the row is found, the dictionary is
    formatted and the row written can be read. *)
Lemma update_bgpvpn_connection_run ctx id d st i r d' out' :
  positions (selects ctx id) st 0 = [i] →
  st !! i = Some r →
  format_route_targets d = Ok d' →
  _make_bgpvpn_connection_dict (row_update d' r) None = Ok out' →
  update_bgpvpn_connection ctx id {["bgpvpn_connection" := d]} st
  = (Ok out', alter (row_update d') i st).
Proof.
  intros Hpos Hr Hfmt Hout'.
  assert (Hi : alter (row_update d') i st !! i = Some (row_update d' r))
    by (by rewrite list_lookup_alter_eq, Hr).
  unfold update_bgpvpn_connection. rewrite lookup_singleton_eq.
  unfold with_transaction, mbind, M_bind, _get_bgpvpn_connection,
    try_except.
  destruct (_get_by_id_one ctx id st i Hpos) as (-> & _).
  case_decide as Hne.
  - unfold lift at 1. rewrite Hfmt. unfold session_update, session_row.
    simpl. rewrite Hi. simpl. unfold lift. by rewrite Hout'.
  - subst d. assert (d' = ∅) as -> by (by injection Hfmt).
    rewrite list_alter_id in Hi |- * by apply row_update_empty.
    unfold mret, M_ret, session_row. simpl. rewrite Hi. simpl.
    unfold lift. by rewrite Hout'.
Qed.

(** On a table whose rows can be read, [update_bgpvpn_connection] either
    raises and leaves the table, or writes the formatted dictionary to the
    one row found and returns its dictionary. *)
Lemma update_bgpvpn_connection_cases ctx id d st :
  Forall readable st →
  (∃ e, update_bgpvpn_connection ctx id {["bgpvpn_connection" := d]} st
        = (Err e, st))
  ∨ ∃ i r d' out',
      positions (selects ctx id) st 0 = [i]
      ∧ st !! i = Some r
      ∧ format_route_targets d = Ok d'
      ∧ _make_bgpvpn_connection_dict (row_update d' r) None = Ok out'
      ∧ update_bgpvpn_connection ctx id {["bgpvpn_connection" := d]} st
        = (Ok out', alter (row_update d') i st).
Proof.
  intros Hst.
  destruct (positions (selects ctx id) st 0) as [|i [|j l]] eqn:Hpos.
  - left. eexists. by apply update_unknown_id.
  - destruct (_get_by_id_one ctx id st i Hpos) as (Hget & r & Hr & _).
    destruct (Forall_lookup_1 _ _ _ _ Hst Hr) as [out Hout].
    destruct (format_route_targets d) as [d'|e] eqn:Hfmt.
    + destruct (format_route_targets_Ok d d' Hfmt) as [HF _].
      destruct (updated_row_readable d d' r out HF Hout) as [out' Hout'].
      right. exists i, r, d', out'. do 4 (split; [done|]).
      by apply (update_bgpvpn_connection_run ctx id d st i r).
    + left. exists e.
      unfold update_bgpvpn_connection. rewrite lookup_singleton_eq.
      unfold with_transaction, mbind, M_bind, _get_bgpvpn_connection,
        try_except.
      rewrite Hget. case_decide as Hne.
      * unfold lift at 1. by rewrite Hfmt.
      * subst d. done.
  - left. eexists.
    unfold update_bgpvpn_connection. rewrite lookup_singleton_eq.
    unfold with_transaction, mbind, M_bind, _get_bgpvpn_connection,
      try_except, _get_by_id.
    rewrite Hpos. by rewrite decide_False.
Qed.

Lemma create_readable uuid ctx req st :
  Forall readable st →
  Forall readable (create_bgpvpn_connection uuid ctx req st).2.
Proof.
  intros Hst.
  destruct (create_bgpvpn_connection_cases uuid ctx req st)
    as [[e ->]|(out & row & -> & _ & Hcols & _)]; [done|]. simpl.
  apply Forall_app. split; [done|]. constructor; [|constructor].
  by apply readable_of_strings.
Qed.

Lemma example_table_readable : Forall readable example_table.
Proof. by apply create_readable. Qed.

(** X10: which exception a creation raises for what is missing. Without
    the key [route_targets] it is [KeyError], and the missing-route-target
    error only when the key holds something empty ([None], the empty string
    or list). With route targets but without the key [import_targets] it is
    [KeyError] again. The table stays as it was. *)
Theorem create_missing (uuid : string) (ctx : context)
    (conn : gmap string pyval) (st : list (gmap string pyval)) :
  (conn !! "route_targets" = None →
   create_bgpvpn_connection uuid ctx {["bgpvpn_connection" := conn]} st
   = (Err (KeyError "route_targets"), st))
  ∧ (∀ v, conn !! "route_targets" = Some v → truthy v = false →
     create_bgpvpn_connection uuid ctx {["bgpvpn_connection" := conn]} st
     = (Err BGPVPNConnectionMissingRouteTarget, st))
  ∧ (∀ rt, conn !! "route_targets" = Some (PList rt) → rt ≠ [] →
     conn !! "import_targets" = None →
     create_bgpvpn_connection uuid ctx {["bgpvpn_connection" := conn]} st
     = (Err (KeyError "import_targets"), st)).
Proof.
  unfold create_bgpvpn_connection. rewrite lookup_singleton_eq.
  unfold mbind, M_bind, lift, raise, dict_get, result_bind.
  split; [|split].
  - by intros ->.
  - intros v -> Hv. by rewrite Hv.
  - intros rt -> Hne ->. by destruct rt.
Qed.

Lemma create_missing_witness :
  create_bgpvpn_connection "uuid-2" example_ctx
    {["bgpvpn_connection" := example_update]} example_table
  = (Err (KeyError "route_targets"), example_table)
  ∧ create_bgpvpn_connection "uuid-2" example_ctx
      {["bgpvpn_connection" := <["route_targets" := PNone]> example_update]}
      example_table
    = (Err BGPVPNConnectionMissingRouteTarget, example_table)
  ∧ create_bgpvpn_connection "uuid-2" example_ctx
      {["bgpvpn_connection" :=
         <["route_targets" := PList ["65000:1"]]> ∅]} example_table
    = (Err (KeyError "import_targets"), example_table).
Proof.
  split; [|split].
  - by apply (create_missing "uuid-2" example_ctx example_update).
  - by apply (proj1 (proj2 (create_missing "uuid-2" example_ctx
             (<["route_targets" := PNone]> example_update) example_table))
             PNone).
  - by apply (proj2 (proj2 (create_missing "uuid-2" example_ctx
             (<["route_targets" := PList ["65000:1"]]> ∅) example_table))
             ["65000:1"]).
Defined.

(** ** All or nothing *)

(** X4: an operation that raises has not written. A creation that raises
    leaves the table as it was, and so does a deletion; so does an update,
    on a table whose rows can all be read. *)
Theorem raise_leaves_table (uuid : string) (ctx : context) (id : string)
    (req : gmap string (gmap string pyval)) (d : gmap string pyval)
    (st : list (gmap string pyval)) :
  (∀ e, (create_bgpvpn_connection uuid ctx req st).1 = Err e →
        (create_bgpvpn_connection uuid ctx req st).2 = st)
  ∧ (∀ e, (delete_bgpvpn_connection ctx id st).1 = Err e →
          (delete_bgpvpn_connection ctx id st).2 = st)
  ∧ (Forall readable st →
     ∀ e, (update_bgpvpn_connection ctx id
             {["bgpvpn_connection" := d]} st).1 = Err e →
          (update_bgpvpn_connection ctx id
             {["bgpvpn_connection" := d]} st).2 = st).
Proof.
  split; [|split].
  - intros e.
    destruct (create_bgpvpn_connection_cases uuid ctx req st)
      as [[e' ->]|(out & row & -> & _)]; done.
  - intros e He. by rewrite (delete_bgpvpn_connection_Err _ _ _ _ He).
  - intros Hst e.
    destruct (update_bgpvpn_connection_cases ctx id d st Hst)
      as [[e' ->]|(i & r & d' & out' & _ & _ & _ & _ & ->)]; done.
Qed.

(** X5: the three operations keep the table readable: when every row of
    the table can be read before a creation, an update or a deletion, every
    row can be read after it, whether the operation returned or raised. *)
Theorem operations_keep_readable (uuid : string) (ctx : context)
    (id : string) (req : gmap string (gmap string pyval))
    (d : gmap string pyval) (st : list (gmap string pyval)) :
  Forall readable st →
  Forall readable (create_bgpvpn_connection uuid ctx req st).2
  ∧ Forall readable
      (update_bgpvpn_connection ctx id {["bgpvpn_connection" := d]} st).2
  ∧ Forall readable (delete_bgpvpn_connection ctx id st).2.
Proof.
  intros Hst. split; [|split].
  - by apply create_readable.
  - destruct (update_bgpvpn_connection_cases ctx id d st Hst)
      as [[e ->]|(i & r & d' & out' & _ & Hr & _ & Hout' & ->)]; [done|].
    simpl. apply Forall_alter; [done|].
    intros r' Hr'. rewrite Hr in Hr'. injection Hr' as <-. by exists out'.
  - destruct (delete_bgpvpn_connection ctx id st) as [[r|e] st'] eqn:Hdel.
    + destruct (delete_bgpvpn_connection_Ok ctx id st r) as (i & _ & _ & H);
        [by rewrite Hdel|].
      rewrite Hdel in H. injection H as ->. by apply Forall_delete.
    + rewrite (delete_bgpvpn_connection_Err ctx id st e) in Hdel
        by (by rewrite Hdel).
      by injection Hdel as <-.
Qed.



(** ** The listings *)

Lemma for_list_Ok {A C} (f : A → res C) (l : list A) :
  Forall (λ x, ∃ y, f x = Ok y) l →
  ∃ ys, for_list f l = Ok ys ∧ Forall2 (λ x y, f x = Ok y) l ys.
Proof.
  induction 1 as [|x l [y Hy] _ (ys & Hys & HF)]; simpl.
  - exists []. by split.
  - exists (y :: ys). rewrite Hy. simpl. rewrite Hys. simpl.
    split; [done|]. by constructor.
Qed.

Lemma for_list_Err {A C} (f : A → res C) (l : list A) e :
  for_list f l = Err e → ∃ x, x ∈ l ∧ f x = Err e.
Proof.
  induction l as [|x l IH]; simpl; [done|].
  destruct (f x) as [y|e'] eqn:Hx; simpl.
  - destruct (for_list f l) as [ys|e'']; simpl; [done|].
    intros [= ->]. destruct IH as (x' & Hin & Hx'); [done|].
    exists x'. split; [by right|done].
  - intros [= ->]. exists x. split; [by left|done].
Qed.

Lemma _make_bgpvpn_connection_dict_Err r fields e :
  _make_bgpvpn_connection_dict r fields = Err e → e = AttributeError.
Proof.
  assert (Hs : ∀ v e', _rtrd_str2list v = Err e' → e' = AttributeError).
  { intros v e'. unfold _rtrd_str2list, py_split_comma.
    destruct (negb (truthy v)); [done|]. destruct v; by intros [= <-]. }
  unfold _make_bgpvpn_connection_dict.
  destruct (_rtrd_str2list (row_get r "route_targets")) eqn:E1;
    simpl; [|intros [= <-]; eauto].
  destruct (_rtrd_str2list (row_get r "import_targets")) eqn:E2;
    simpl; [|intros [= <-]; eauto].
  destruct (_rtrd_str2list (row_get r "export_targets")) eqn:E3;
    simpl; [|intros [= <-]; eauto].
  destruct (_rtrd_str2list (row_get r "route_distinguishers")) eqn:E4;
    simpl; [done|intros [= <-]; eauto].
Qed.

Lemma _make_bgpvpn_connection_dict_scalar r out k :
  _make_bgpvpn_connection_dict r None = Ok out →
  k ∈ ["id"; "tenant_id"; "network_id"; "name"; "type"; "auto_aggregate"] →
  out !! k = Some (row_get r k).
Proof.
  unfold _make_bgpvpn_connection_dict.
  destruct (_rtrd_str2list (row_get r "route_targets")); simpl; [|done].
  destruct (_rtrd_str2list (row_get r "import_targets")); simpl; [|done].
  destruct (_rtrd_str2list (row_get r "export_targets")); simpl; [|done].
  destruct (_rtrd_str2list (row_get r "route_distinguishers")); simpl;
    [|done].
  intros [= <-] Hk.
  repeat (apply elem_of_cons in Hk as [->|Hk]);
    [reflexivity..|by apply elem_of_nil in Hk].
Qed.

(** What a listing of the rows that satisfy [p] returns. *)
Lemma listing_rows p fields st :
  try_or_return_None (session_query p)
    (λ bgpvpn_connections,
       lift (l ← for_list (λ bvc, _make_bgpvpn_connection_dict bvc fields)
                   bgpvpn_connections;
             Ok (Some l))) st
  = (match for_list (λ bvc, _make_bgpvpn_connection_dict bvc fields)
             (filter (λ r, p r = true) st) with
     | Ok l => Ok (Some l)
     | Err e => Err e
     end, st).
Proof. done. Qed.

Lemma readable_rows (P : gmap string pyval → Prop)
    `{!∀ r, Decision (P r)} st :
  Forall readable st →
  Forall (λ r, ∃ out, _make_bgpvpn_connection_dict r None = Ok out)
    (filter P st).
Proof.
  intros Hst. apply Forall_forall. intros r Hr.
  apply list_elem_of_filter in Hr as [_ Hr].
  by apply (proj1 (Forall_forall _ _) Hst).
Qed.

(** X7: [find_bgpvpn_connections_for_network] never answers [None] and
    never raises [NoResultFound], so its [except] clause is dead; for a
    network that no row has it returns the empty list. On a readable table
    it returns the dictionaries of all the rows of the network, in the
    order of the table and whatever their tenant and the caller are. *)
Theorem find_for_network (ctx : context) (network_id : pyval)
    (st : list (gmap string pyval)) :
  let rows :=
    filter (λ r, bool_decide (row_get r "network_id" = network_id) = true)
      st in
  (find_bgpvpn_connections_for_network ctx network_id st).1 ≠ Ok None
  ∧ (find_bgpvpn_connections_for_network ctx network_id st).1
    ≠ Err NoResultFound
  ∧ (find_bgpvpn_connections_for_network ctx network_id st).2 = st
  ∧ (rows = [] →
     (find_bgpvpn_connections_for_network ctx network_id st).1
     = Ok (Some []))
  ∧ (Forall readable st →
     ∃ outs,
       (find_bgpvpn_connections_for_network ctx network_id st).1
       = Ok (Some outs)
       ∧ Forall2 (λ r out, _make_bgpvpn_connection_dict r None = Ok out)
           rows outs
       ∧ Forall (λ out, out !! "network_id" = Some network_id) outs).
Proof.
  intros rows. unfold find_bgpvpn_connections_for_network.
  rewrite listing_rows. fold rows. simpl.
  split; [|split; [|split; [done|split]]].
  - by destruct (for_list _ rows).
  - destruct (for_list _ rows) as [l|e] eqn:Hl; [done|].
    apply for_list_Err in Hl as (r & _ & Hr).
    apply _make_bgpvpn_connection_dict_Err in Hr as ->. done.
  - by intros ->.
  - intros Hst.
    destruct (for_list_Ok (λ bvc, _make_bgpvpn_connection_dict bvc None)
                rows) as (outs & -> & HF).
    { by apply readable_rows. }
    exists outs. split; [done|]. split; [done|].
    apply Forall_forall. intros out Hout.
    apply list_elem_of_lookup in Hout as [j Hj].
    destruct (Forall2_lookup_r _ _ _ _ _ HF Hj) as (r & Hr & Hmk).
    apply list_elem_of_lookup_2, list_elem_of_filter in Hr as [Hnet _].
    apply bool_decide_eq_true in Hnet.
    rewrite (_make_bgpvpn_connection_dict_scalar r out "network_id" Hmk)
      by repeat constructor.
    by rewrite Hnet.
Qed.

(** X8: [_get_bgpvpn_connections_for_tenant] never answers [None] and
    never raises [NoResultFound]. On a readable table it returns the
    dictionaries of the rows of the tenant asked for, in the order of the
    table, and each has that tenant. *)
Theorem connections_for_tenant (tenant : pyval)
    (st : list (gmap string pyval)) :
  let rows :=
    filter (λ r, bool_decide (row_get r "tenant_id" = tenant) = true) st in
  (∀ fields,
     (_get_bgpvpn_connections_for_tenant tenant fields st).1 ≠ Ok None
     ∧ (_get_bgpvpn_connections_for_tenant tenant fields st).1
       ≠ Err NoResultFound
     ∧ (_get_bgpvpn_connections_for_tenant tenant fields st).2 = st)
  ∧ (Forall readable st →
     ∃ outs,
       (_get_bgpvpn_connections_for_tenant tenant None st).1
       = Ok (Some outs)
       ∧ Forall2 (λ r out, _make_bgpvpn_connection_dict r None = Ok out)
           rows outs
       ∧ Forall (λ out, out !! "tenant_id" = Some tenant) outs).
Proof.
  intros rows. unfold _get_bgpvpn_connections_for_tenant. split.
  - intros fields. rewrite listing_rows. fold rows. simpl.
    split; [|split; [|done]].
    + by destruct (for_list _ rows).
    + destruct (for_list _ rows) as [l|e] eqn:Hl; [done|].
      apply for_list_Err in Hl as (r & _ & Hr).
      apply _make_bgpvpn_connection_dict_Err in Hr as ->. done.
  - intros Hst. rewrite listing_rows. fold rows. simpl.
    destruct (for_list_Ok (λ bvc, _make_bgpvpn_connection_dict bvc None)
                rows) as (outs & -> & HF).
    { by apply readable_rows. }
    exists outs. split; [done|]. split; [done|].
    apply Forall_forall. intros out Hout.
    apply list_elem_of_lookup in Hout as [j Hj].
    destruct (Forall2_lookup_r _ _ _ _ _ HF Hj) as (r & Hr & Hmk).
    apply list_elem_of_lookup_2, list_elem_of_filter in Hr as [Hten _].
    apply bool_decide_eq_true in Hten.
    rewrite (_make_bgpvpn_connection_dict_scalar r out "tenant_id" Hmk)
      by repeat constructor.
    by rewrite Hten.
Qed.

(** X9: on a readable table [get_bgpvpn_connections] returns the
    dictionaries of the rows that the caller sees and the filters keep. A
    caller who is not admin gets connections of its own tenant only; and
    without filters, every connection that [get_bgpvpn_connection] returns
    to the caller is in the list. *)
Theorem connections_scoped (ctx : context)
    (keeps : gmap string pyval → bool) (st : list (gmap string pyval)) :
  Forall readable st →
  ∃ outs,
    get_bgpvpn_connections ctx keeps None st = (Ok outs, st)
    ∧ Forall2 (λ r out, _make_bgpvpn_connection_dict r None = Ok out)
        (filter (λ r, visible ctx r && keeps r = true) st) outs
    ∧ (is_admin ctx = false →
       Forall (λ out, out !! "tenant_id" = Some (PStr (tenant_id ctx))) outs)
    ∧ ((∀ r, keeps r = true) →
       ∀ id out, (get_bgpvpn_connection ctx id None st).1 = Ok out →
                 out ∈ outs).
Proof.
  intros Hst. unfold get_bgpvpn_connections, _get_collection.
  set (rows := filter (λ r, visible ctx r && keeps r = true) st).
  destruct (for_list_Ok (λ c, _make_bgpvpn_connection_dict c None) rows)
    as (outs & -> & HF).
  { by apply readable_rows. }
  exists outs. split; [done|]. split; [done|]. split.
  - intros Hadmin. apply Forall_forall. intros out Hout.
    apply list_elem_of_lookup in Hout as [j Hj].
    destruct (Forall2_lookup_r _ _ _ _ _ HF Hj) as (r & Hr & Hmk).
    apply list_elem_of_lookup_2, list_elem_of_filter in Hr as [Hvis _].
    apply andb_prop in Hvis as [Hvis _]. unfold visible in Hvis.
    rewrite Hadmin in Hvis. simpl in Hvis. apply bool_decide_eq_true in Hvis.
    rewrite (_make_bgpvpn_connection_dict_scalar r out "tenant_id" Hmk)
      by repeat constructor.
    by rewrite Hvis.
  - intros Hkeeps id out. rewrite get_bgpvpn_connection_rows. simpl.
    destruct (filter (λ r, selects ctx id r = true) st) as [|r [|r' l]]
      eqn:Hsel; [done| |done].
    intros Hout.
    assert (Hin : r ∈ rows).
    { assert (r ∈ filter (λ r, selects ctx id r = true) st) as Hr
        by (rewrite Hsel; by left).
      apply list_elem_of_filter in Hr as [Hr Hrin].
      apply list_elem_of_filter. split; [|done].
      unfold selects in Hr. apply andb_prop in Hr as [-> _].
      by rewrite Hkeeps. }
    apply list_elem_of_lookup in Hin as [j Hj].
    destruct (Forall2_lookup_l _ _ _ _ _ HF Hj) as (out' & Hj' & Hmk).
    rewrite Hout in Hmk. injection Hmk as <-.
    by eapply list_elem_of_lookup_2.
Qed.

(** ** The theorems on the example table *)

Lemma delete_then_get_witness :
  let st' := (delete_bgpvpn_connection example_ctx "uuid-1"
                example_table).2 in
  length example_table = S (length st')
  ∧ get_bgpvpn_connection example_ctx "uuid-1" None st'
    = (Err (BGPVPNConnectionNotFound "uuid-1"), st')
  ∧ delete_bgpvpn_connection example_ctx "uuid-1" st'
    = (Err NoResultFound, st')
  ∧ ∀ id' fields, id' ≠ "uuid-1" →
      (get_bgpvpn_connection example_ctx id' fields st').1
      = (get_bgpvpn_connection example_ctx id' fields example_table).1.
Proof.
  apply (delete_then_get example_ctx "uuid-1" example_table
           (default ∅ (example_table !! 0))).
  vm_compute; exact eq_refl.
Defined.

Lemma create_then_get_witness :
  ∃ row,
    create_bgpvpn_connection "uuid-1" example_ctx example_request []
    = (Ok example_dict, [] ++ [row])
    ∧ get_bgpvpn_connection example_ctx "uuid-1" None ([] ++ [row])
      = (Ok example_dict, [] ++ [row]).
Proof.
  apply (create_then_get "uuid-1" example_ctx
    (<["name" := PStr "blue"]>
     (<["type" := PStr "l3"]>
     (<["route_targets" := PList ["65000:1"; "65000:2"]]>
     (<["import_targets" := PList []]>
     (<["export_targets" := PList ["65000:9"]]>
     (<["network_id" := PNone]>
     (<["auto_aggregate" := PBool false]> ∅)))))))
    [] ["65000:1"; "65000:2"] [] ["65000:9"] []
    (PStr "blue") (PStr "l3") PNone (PBool false));
    try reflexivity; try discriminate;
    try (split; [repeat constructor|discriminate]).
  left. by split.
Defined.

Lemma raise_leaves_table_witness :
  (create_bgpvpn_connection "uuid-2" example_ctx
     {["bgpvpn_connection" := example_update]} example_table).2
  = example_table
  ∧ (delete_bgpvpn_connection example_ctx "uuid-2" example_table).2
    = example_table
  ∧ (update_bgpvpn_connection example_ctx "uuid-1"
       {["bgpvpn_connection" := <["route_targets" := PBool true]> ∅]}
       example_table).2
    = example_table.
Proof.
  destruct (raise_leaves_table "uuid-2" example_ctx "uuid-2"
              {["bgpvpn_connection" := example_update]} ∅ example_table)
    as (Hc & Hd & _).
  destruct (raise_leaves_table "uuid-2" example_ctx "uuid-1" ∅
              (<["route_targets" := PBool true]> ∅) example_table)
    as (_ & _ & Hu).
  split; [|split].
  - apply (Hc (KeyError "route_targets")). vm_compute; exact eq_refl.
  - apply (Hd NoResultFound). vm_compute; exact eq_refl.
  - apply (Hu example_table_readable TypeError). vm_compute; exact eq_refl.
Defined.

Lemma operations_keep_readable_witness :
  Forall readable
    (create_bgpvpn_connection "uuid-2" example_ctx example_request
       example_table).2
  ∧ Forall readable
      (update_bgpvpn_connection example_ctx "uuid-1"
         {["bgpvpn_connection" := example_update]} example_table).2
  ∧ Forall readable
      (delete_bgpvpn_connection example_ctx "uuid-1" example_table).2.
Proof.
  apply (operations_keep_readable "uuid-2" example_ctx "uuid-1"
           example_request example_update example_table).
  apply example_table_readable.
Defined.


Lemma find_for_network_witness :
  (find_bgpvpn_connections_for_network example_ctx (PStr "net-1")
     example_table).1 = Ok (Some [])
  ∧ ∃ outs,
      (find_bgpvpn_connections_for_network (Context false "tenant-2") PNone
         example_table).1 = Ok (Some outs)
      ∧ Forall (λ out, out !! "network_id" = Some PNone) outs.
Proof.
  split.
  - apply (find_for_network example_ctx (PStr "net-1") example_table).
    vm_compute; exact eq_refl.
  - destruct (find_for_network (Context false "tenant-2") PNone
                example_table) as (_ & _ & _ & _ & H).
    destruct (H example_table_readable) as (outs & H1 & _ & H2).
    by exists outs.
Defined.

Lemma connections_for_tenant_witness :
  ∃ outs,
    (_get_bgpvpn_connections_for_tenant (PStr "tenant-1") None
       example_table).1 = Ok (Some outs)
    ∧ Forall (λ out, out !! "tenant_id" = Some (PStr "tenant-1")) outs.
Proof.
  destruct (connections_for_tenant (PStr "tenant-1") example_table)
    as [_ H].
  destruct (H example_table_readable) as (outs & H1 & _ & H2).
  by exists outs.
Defined.

Lemma connections_scoped_witness :
  ∃ outs,
    get_bgpvpn_connections example_ctx (λ _, true) None example_table
    = (Ok outs, example_table)
    ∧ Forall (λ out, out !! "tenant_id" = Some (PStr "tenant-1")) outs
    ∧ example_dict ∈ outs.
Proof.
  destruct (connections_scoped example_ctx (λ _, true) example_table
              example_table_readable) as (outs & H1 & _ & H2 & H3).
  exists outs. split; [done|]. split; [by apply H2|].
  apply (H3 (λ _, eq_refl) "uuid-1"). vm_compute; exact eq_refl.
Defined.

End DbMore.

(** * More on the association workflow *)

Module DashboardMore.
Import Dashboard DashboardProofs.

Section workflow.
Context {B : Type} `{!Api B}.
Implicit Types (w : world B) (d : data) (ty : association_type).

(** ** What the calls are about *)

Lemma _handle_type_concerns d ty : emits (_handle_type d ty) (concerns d ty).
Proof.
  unfold _handle_type.
  apply emits_bind; [apply emits_lift|]. intros associations.
  apply emits_bind.
  { apply emits_try_handle; [|done].
    apply emits_bind; [by apply emits_invoke|]. intros l. apply emits_ret. }
  intros old_associations. rewrite !guard_for_each.
  apply emits_bind.
  - apply emits_for_each. intros resource.
    apply emits_try_handle; [|done]. apply emits_invoke.
    repeat split. by exists resource.
  - intros _. apply emits_for_each. intros resource.
    apply emits_try_handle; [|done].
    apply emits_bind; [by apply emits_invoke|]. intros asso_list.
    apply emits_for_each. intros a. case_decide.
    + by apply emits_invoke.
    + apply emits_ret.
Qed.

(** X11: a reconciliation stays with its type and its BGP VPN: every list,
    create and delete call it makes is for the association type it was
    asked for and for the [bgpvpn_id] of the data, every create call has
    the one parameter [<type>_id], and every error it reports is about that
    type. *)
Theorem calls_concern_type (d : data) (ty : association_type)
    (w : world B) :
  Forall (concerns d ty) (new_calls w (_handle_type d ty w).2).
Proof.
  destruct (_handle_type_concerns d ty w) as (t & Ht & HP).
  by rewrite (new_calls_app _ _ _ Ht).
Qed.

(** X12: when the associations cannot be listed, nothing is changed: the
    reconciliation reports "unable to retrieve" and raises, having made the
    list call and no create or delete call. *)
Theorem retrieval_failure (d : data) (ty : association_type) (w : world B)
    (l : list string) (e : exn) (b : B) :
  data_associations d ty = Ok l →
  association_list ty (bgpvpn_id d) (backend w) = (Err e, b) →
  ∃ e',
    (_handle_type d ty w).1 = Err e'
    ∧ new_calls w (_handle_type d ty w).2
      = [list_call_of d ty;
         exceptions_handle_call (unable_to_retrieve_associations ty)].
Proof.
  intros Hl Hlist.
  destruct (_handle_type_fetch_Err d ty w l e b Hl Hlist) as (e' & b' & ->).
  exists e'. split; [done|]. by apply new_calls_app.
Qed.

(** ** The create calls *)

Lemma filter_no (p : call → bool) (t : list call) :
  Forall (λ c, p c = false) t → filter (λ c, p c = true) t = [].
Proof.
  induction 1 as [|c t Hc _ IH]; [done|].
  by rewrite filter_cons_False by (by rewrite Hc).
Qed.

(** The create calls of the additions are those of the first resources to
    add, up to and including the one whose call raised. *)
Lemma add_phase_creates d ty l w :
  ∃ t l1,
    calls (for_each l (add_resource d ty) w).2 = calls w ++ t
    ∧ l1 `prefix_of` l
    ∧ filter (λ c, is_create c = true) t = create_call_of d ty <$> l1.
Proof.
  revert w. induction l as [|r l IH]; intros w; simpl.
  { exists [], []. by rewrite app_nil_r. }
  unfold mbind, M_bind.
  destruct (association_create ty (bgpvpn_id d) (_set_params d ty r)
              (backend w)) as [[[]|e] b] eqn:Hc.
  - rewrite (add_resource_Ok _ _ _ _ _ Hc).
    destruct (IH (World b (calls w ++ [create_call_of d ty r])))
      as (t & l1 & Ht & Hpre & Hfil).
    exists (create_call_of d ty r :: t), (r :: l1). rewrite Ht. simpl.
    rewrite <- (assoc_L (++)). split; [done|].
    split; [by apply prefix_cons|].
    rewrite filter_cons_True by done. by rewrite Hfil.
  - destruct (add_resource_Err _ _ _ _ _ _ Hc) as (e' & b' & ->). simpl.
    eexists _, [r]. split; [done|]. split.
    + by apply prefix_cons, prefix_nil.
    + rewrite filter_cons_True by done. by rewrite filter_cons_False.
Qed.

(** X13: create calls are made only for new resources, and once each: the
    create calls of a reconciliation are those of a duplicate-free list of
    resources that starts the list of resources to add; every one of them
    is desired and was not associated when the associations were listed. *)
Theorem creates_only_new (d : data) (ty : association_type) (w : world B)
    (l : list string) (assos : list association) (b : B) :
  data_associations d ty = Ok l →
  association_list ty (bgpvpn_id d) (backend w) = (Ok assos, b) →
  ∃ created,
    filter (λ c, is_create c = true) (new_calls w (_handle_type d ty w).2)
    = create_call_of d ty <$> created
    ∧ created `prefix_of` to_add_associations (resource_id <$> assos) l
    ∧ NoDup created
    ∧ ∀ r, r ∈ created → r ∈ l ∧ r ∉ resource_id <$> assos.
Proof.
  intros Hl Hassos.
  rewrite (_handle_type_fetched _ _ _ _ _ _ Hl Hassos).
  set (w1 := World b (calls w ++ [list_call_of d ty])).
  set (to_add := to_add_associations (resource_id <$> assos) l).
  set (to_remove := to_remove_associations (resource_id <$> assos) l).
  destruct (add_phase_creates d ty to_add w1) as (t1 & l1 & Ht1 & Hpre & Hfil).
  assert (Ht : ∃ t2, Forall (λ c, is_create c = false) t2 ∧
            calls ((_ ← for_each to_add (add_resource d ty);
                    for_each to_remove (remove_resource d ty)) w1).2
            = calls w ++ [list_call_of d ty] ++ t1 ++ t2).
  { unfold mbind, M_bind.
    destruct (for_each to_add (add_resource d ty) w1) as [[[]|e] w2];
      simpl in *.
    - destruct (remove_phase d ty to_remove w2) as (t2 & Ht2 & Hcre).
      exists t2. split; [done|]. rewrite Ht2, Ht1.
      by rewrite <- !(assoc_L (++)).
    - exists []. split; [done|]. rewrite Ht1, app_nil_r.
      by rewrite <- !(assoc_L (++)). }
  destruct Ht as (t2 & Hcre & Ht).
  rewrite (new_calls_app _ _ _ Ht).
  exists l1. split; [|split; [done|]].
  - rewrite !filter_app, Hfil, (filter_no is_create t2 Hcre), app_nil_r.
    by rewrite filter_cons_False.
  - destruct Hpre as [l2 Hl2].
    assert (Hnd : NoDup to_add) by apply NoDup_elements.
    rewrite Hl2 in Hnd. apply NoDup_app in Hnd as (Hnd & _ & _).
    split; [done|]. intros r Hr.
    assert (r ∈ to_add) as Hin by (rewrite Hl2; apply elem_of_app; by left).
    unfold to_add, to_add_associations in Hin.
    apply elem_of_elements, elem_of_difference in Hin as [Hin Hnot].
    rewrite elem_of_list_to_set in Hin. rewrite elem_of_list_to_set in Hnot.
    done.
Qed.

(** ** The delete calls *)

Lemma delete_matching d ty resource (asso_list : list association) w :
  (for_each asso_list (λ association,
     if decide (resource_id association = resource)
     then delete_method ty (id association) (bgpvpn_id d)
     else mret ()) w).1 = Ok () →
  calls (for_each asso_list (λ association,
     if decide (resource_id association = resource)
     then delete_method ty (id association) (bgpvpn_id d)
     else mret ()) w).2
  = calls w ++ (delete_call_of d ty <$> matching resource asso_list).
Proof.
  revert w. induction asso_list as [|a asso_list IH]; intros w; simpl.
  { by rewrite app_nil_r. }
  unfold matching. case_decide as Ha.
  - rewrite filter_cons_True by done.
    unfold mbind, M_bind.
    change (delete_method ty (id a) (bgpvpn_id d) w)
      with (invoke (association_delete_call ty (id a) (bgpvpn_id d))
              (association_delete ty (id a) (bgpvpn_id d)) w).
    destruct (association_delete ty (id a) (bgpvpn_id d) (backend w))
      as [[[]|e] b] eqn:Hdel; rewrite (invoke_eq _ _ _ _ _ Hdel);
      [|by simpl].
    intros HOk. rewrite (IH _ HOk). simpl.
    by rewrite <- (assoc_L (++)).
  - rewrite filter_cons_False by done.
    unfold mbind, M_bind. simpl. apply IH.
Qed.

(** X14: a turn of the removal loop that returns has deleted every
    association for the resource that the list call returned, in the order
    of the list, two of them if there are two, and no other association. *)
Theorem removes_every_match (d : data) (ty : association_type)
    (resource : string) (w : world B) (asso_list : list association)
    (b : B) :
  association_list ty (bgpvpn_id d) (backend w) = (Ok asso_list, b) →
  (remove_resource d ty resource w).1 = Ok () →
  new_calls w (remove_resource d ty resource w).2
  = list_call_of d ty
    :: (delete_call_of d ty <$> matching resource asso_list).
Proof.
  intros Hl. unfold remove_resource, try_handle, mbind, M_bind, list_method.
  rewrite (invoke_eq _ _ _ _ _ Hl).
  set (w1 := World b (calls w ++ [association_list_call ty (bgpvpn_id d)])).
  pose proof (delete_matching d ty resource asso_list w1) as Hdel.
  destruct (for_each asso_list _ w1) as [[[]|e] w2]; simpl in *.
  - intros _. apply new_calls_app. rewrite Hdel by done.
    by rewrite <- (assoc_L (++)).
  - unfold invoke.
    by destruct (exceptions_handle (unable_to_disassociate ty) (backend w2))
      as [[[]|e'] b'].
Qed.

(** ** Reporting *)

Lemma reports_lift_Ok {A} (a : A) : reports (lift (Ok a) : M B A).
Proof.
  intros w. exists []. simpl. rewrite app_nil_r. split; [done|constructor].
Qed.

Lemma reports_ret {A} (a : A) : reports (mret a : M B A).
Proof.
  intros w. exists []. simpl. rewrite app_nil_r. split; [done|constructor].
Qed.

Lemma reports_bind {A C} (m : M B A) (k : A → M B C) :
  reports m → (∀ a, reports (k a)) → reports (m ≫= k).
Proof.
  intros Hm Hk w. unfold mbind, M_bind.
  destruct (Hm w) as (t & Ht & HP).
  destruct (m w) as [[a|e] w']; simpl in *.
  - destruct (Hk a w') as (t' & Ht' & HP'). exists (t ++ t').
    rewrite Ht', Ht, (assoc_L (++)). split; [done|].
    destruct (k a w').1 as [c|e].
    + by apply Forall_app.
    + destruct HP' as (t0 & msg & -> & Ht0). exists (t ++ t0), msg.
      rewrite (assoc_L (++)). split; [done|]. by apply Forall_app.
  - by exists t.
Qed.

Lemma reports_for_each {A} (l : list A) (body : A → M B unit) :
  (∀ x, reports (body x)) → reports (for_each l body).
Proof.
  intros Hbody. induction l as [|x l IH]; simpl.
  - apply reports_ret.
  - apply reports_bind; [done|]. by intros [].
Qed.

Lemma reports_try_handle {A} (m : M B A) msg :
  emits m (λ c, is_handle c = false) → reports (try_handle m msg).
Proof.
  intros Hm w. destruct (Hm w) as (t & Ht & HP).
  destruct (m w) as [[a|e] w'] eqn:Hmw; simpl in *.
  - rewrite (try_handle_Ok _ _ _ _ _ Hmw). by exists t.
  - destruct (try_handle_Err _ msg _ _ _ Hmw) as (e' & b & ->). simpl.
    exists (t ++ [exceptions_handle_call (msg e)]).
    rewrite Ht, (assoc_L (++)). split; [done|]. by exists t, (msg e).
Qed.

Lemma _handle_type_reports d ty l :
  data_associations d ty = Ok l → reports (_handle_type d ty).
Proof.
  intros Hl. unfold _handle_type. rewrite Hl.
  apply reports_bind; [apply reports_lift_Ok|]. intros associations.
  apply reports_bind.
  { apply reports_try_handle.
    apply emits_bind; [by apply emits_invoke|]. intros x. apply emits_ret. }
  intros old_associations. rewrite !guard_for_each.
  apply reports_bind.
  - apply reports_for_each. intros resource.
    apply reports_try_handle. by apply emits_invoke.
  - intros _. apply reports_for_each. intros resource.
    apply reports_try_handle.
    apply emits_bind; [by apply emits_invoke|]. intros asso_list.
    apply emits_for_each. intros a. case_decide.
    + by apply emits_invoke.
    + apply emits_ret.
Qed.

(** X15: every exception of a reconciliation is reported, once, and ends
    it. A reconciliation that returns has not called [exceptions.handle];
    one that raises has called it exactly once, as its last call: after the
    report no association is listed, created or deleted. *)
Theorem reported_once (d : data) (ty : association_type) (w : world B)
    (l : list string) :
  data_associations d ty = Ok l →
  let t := new_calls w (_handle_type d ty w).2 in
  match (_handle_type d ty w).1 with
  | Ok _ => Forall (λ c, is_handle c = false) t
  | Err _ => ∃ t0 msg, t = t0 ++ [exceptions_handle_call msg]
               ∧ Forall (λ c, is_handle c = false) t0
  end.
Proof.
  intros Hl.
  destruct (_handle_type_reports d ty l Hl w) as (t & Ht & HP).
  simpl. by rewrite (new_calls_app _ _ _ Ht).
Qed.

(** ** Networks before routers *)

(** X16: [handle] reconciles the networks first and the routers after
    them: its calls are calls about networks followed by calls about
    routers. There is no call about routers when the reconciliation of the
    networks raised, and no call about a type whose key the data lacks. *)
Theorem networks_then_routers (d : data) (w : world B) :
  ∃ tn tr,
    new_calls w (handle d w).2 = tn ++ tr
    ∧ Forall (concerns d network) tn
    ∧ Forall (concerns d router) tr
    ∧ (∀ e, is_Some (networks_association d) →
         (_handle_type d network w).1 = Err e → tr = [])
    ∧ (networks_association d = None → tn = [])
    ∧ (routers_association d = None → tr = []).
Proof.
  assert (Hw : (handle d w).2 = (handle_try d w).2).
  { unfold handle. by destruct (handle_try d w) as [[[]|e] w']. }
  rewrite Hw, handle_try_unfold.
  destruct (networks_association d) as [ln|] eqn:Hn,
    (routers_association d) as [lr|] eqn:Hr.
  - destruct (_handle_type_concerns d network w) as (tn & Htn & Hcn).
    destruct (_handle_type d network w) as [[[]|e] w1] eqn:H1; simpl in *.
    + destruct (_handle_type_concerns d router w1) as (tr & Htr & Hcr).
      exists tn, tr. split.
      { apply new_calls_app. rewrite Htr, Htn. by rewrite (assoc_L (++)). }
      by repeat split.
    + exists tn, []. split.
      { apply new_calls_app. by rewrite app_nil_r. }
      by repeat split.
  - destruct (_handle_type_concerns d network w) as (tn & Htn & Hcn).
    exists tn, []. split.
    { apply new_calls_app. by rewrite app_nil_r. }
    by repeat split.
  - destruct (_handle_type_concerns d router w) as (tr & Htr & Hcr).
    exists [], tr. split; [by apply new_calls_app|].
    repeat split; try done; by intros e [? ?].
  - exists [], []. split.
    { apply new_calls_app. by rewrite app_nil_r. }
    by repeat split.
Qed.

End workflow.

(** ** The theorems on the scripted collaborator *)

Lemma retrieval_failure_witness :
  ∃ e',
    (_handle_type example_data network
       (World (Script [Err (ApiError "down")] [] []) [])).1 = Err e'
    ∧ new_calls (World (Script [Err (ApiError "down")] [] []) [])
        (_handle_type example_data network
           (World (Script [Err (ApiError "down")] [] []) [])).2
      = [list_call_of example_data network;
         exceptions_handle_call (unable_to_retrieve_associations network)].
Proof.
  apply (retrieval_failure example_data network
           (World (Script [Err (ApiError "down")] [] []) [])
           ["A"; "B"] (ApiError "down") (Script [] [] [])); reflexivity.
Defined.

Lemma creates_only_new_witness :
  ∃ created,
    filter (λ c, is_create c = true)
      (new_calls refusing_world
         (_handle_type example_data network refusing_world).2)
    = create_call_of example_data network <$> created
    ∧ created `prefix_of`
        to_add_associations
          (resource_id <$> ([] : list association)) ["A"; "B"]
    ∧ NoDup created
    ∧ ∀ r, r ∈ created →
        r ∈ ["A"; "B"] ∧ r ∉ resource_id <$> ([] : list association).
Proof.
  apply (creates_only_new example_data network refusing_world ["A"; "B"] []
           (Script [] [Err (ApiError "refused")] [])); reflexivity.
Defined.

Lemma removes_every_match_witness :
  new_calls
    (World (Script [Ok [Association "asso-1" "C"; Association "asso-2" "D";
                        Association "asso-3" "C"]] [] []) [])
    (remove_resource example_data network "C"
       (World (Script [Ok [Association "asso-1" "C"; Association "asso-2" "D";
                           Association "asso-3" "C"]] [] []) [])).2
  = list_call_of example_data network
    :: (delete_call_of example_data network <$>
        matching "C" [Association "asso-1" "C"; Association "asso-2" "D";
                      Association "asso-3" "C"]).
Proof.
  apply (removes_every_match example_data network "C"
           (World (Script [Ok [Association "asso-1" "C";
                               Association "asso-2" "D";
                               Association "asso-3" "C"]] [] []) [])
           [Association "asso-1" "C"; Association "asso-2" "D";
            Association "asso-3" "C"] (Script [] [] [])); reflexivity.
Defined.

Lemma reported_once_witness :
  let t := new_calls refusing_world
             (_handle_type example_data network refusing_world).2 in
  match (_handle_type example_data network refusing_world).1 with
  | Ok _ => Forall (λ c, is_handle c = false) t
  | Err _ => ∃ t0 msg, t = t0 ++ [exceptions_handle_call msg]
               ∧ Forall (λ c, is_handle c = false) t0
  end.
Proof.
  apply (reported_once example_data network refusing_world ["A"; "B"]).
  reflexivity.
Defined.

End DashboardMore.

(** * The router association wizard *)

Module RouterMore.
Import RouterWorkflow.

Section workflow.
Context {B : Type} `{!Api B}.

Lemma router_new_calls_app (w w' : world B) t :
  calls w' = calls w ++ t → new_calls w w' = t.
Proof. unfold new_calls. intros ->. by rewrite drop_app_length. Qed.

Lemma handle_create_Err py3 context (w : world B) e b :
  router_association_create (bgpvpn_id context) (router_resource context)
    (backend w) = (Err e, b) →
  handle py3 context w
  = match exceptions_handle
            (unable_to_associate_router (router_resource context) e) b with
    | (Ok _, b') =>
        (Ok false,
         World b' (calls w ++
           [router_association_create_call (bgpvpn_id context)
              (router_resource context);
            exceptions_handle_call
              (unable_to_associate_router (router_resource context) e)]))
    | (Err e', b') =>
        (Err e',
         World b' (calls w ++
           [router_association_create_call (bgpvpn_id context)
              (router_resource context);
            exceptions_handle_call
              (unable_to_associate_router (router_resource context) e)]))
    end.
Proof.
  intros Hc. unfold handle, invoke. rewrite Hc. simpl.
  destruct (exceptions_handle _ b) as [[[]|e'] b']; simpl;
    by rewrite <- (assoc_L (++)).
Qed.

Lemma handle_no_parameters py3 context (w : world B) ra b :
  router_association_create (bgpvpn_id context) (router_resource context)
    (backend w) = (Ok ra, b) →
  with_parameters context = false →
  handle py3 context w
  = (Ok true,
     World b (calls w ++
       [router_association_create_call (bgpvpn_id context)
          (router_resource context)])).
Proof. intros Hc Hwith. unfold handle, invoke. by rewrite Hc, Hwith. Qed.

Lemma handle_parameters py3 context (w : world B) ra b :
  router_association_create (bgpvpn_id context) (router_resource context)
    (backend w) = (Ok ra, b) →
  with_parameters context = true →
  let create :=
    router_association_create_call (bgpvpn_id context)
      (router_resource context) in
  handle py3 context w
  = match ra !! "router_association" with
    | None => (Err (KeyError "router_association"),
               World b (calls w ++ [create]))
    | Some dict =>
        match dict !! "id" with
        | None => (Err (KeyError "id"), World b (calls w ++ [create]))
        | Some asso_id =>
            match router_association_update (bgpvpn_id context) asso_id
                    (advertise_extra_routes context) b with
            | (Ok _, b') =>
                (Ok true,
                 World b' (calls w ++
                   [create;
                    router_association_update_call (bgpvpn_id context)
                      asso_id (advertise_extra_routes context)]))
            | (Err e, b') =>
                (Err (if py3 then TypeError else e),
                 World b' (calls w ++
                   [create;
                    router_association_update_call (bgpvpn_id context)
                      asso_id (advertise_extra_routes context)]))
            end
        end
    end.
Proof.
  intros Hc Hwith. simpl. unfold handle, invoke, lookup2, raise.
  rewrite Hc, Hwith. simpl.
  destruct (ra !! "router_association") as [dict|]; [|done].
  destruct (dict !! "id") as [asso_id|]; [|done]. simpl.
  destruct (router_association_update _ _ _ b) as [[[]|e] b']; simpl;
    by rewrite <- (assoc_L (++)).
Qed.

(** X17: what [RouterAssociation.handle] calls. It makes the create call
    first, and never a delete call. It reports an error and returns
    [False] only when the create call raised. When the create call returned
    and parameters are asked for, it makes the update call with the id of
    the new association; if that call raises, an exception leaves [handle]
    and the new association stays, unreported. *)
Theorem router_handle_calls (py3 : bool) (context : context) (w : world B) :
  let t := new_calls w (handle py3 context w).2 in
  let create :=
    router_association_create_call (bgpvpn_id context)
      (router_resource context) in
  (∃ t', t = create :: t'
         ∧ Forall (λ c, is_create c = false ∧ is_delete c = false) t')
  ∧ (∀ e b,
       router_association_create (bgpvpn_id context)
         (router_resource context) (backend w) = (Err e, b) →
       t = [create;
            exceptions_handle_call
              (unable_to_associate_router (router_resource context) e)]
       ∧ ((handle py3 context w).1 = Ok false
          ∨ ∃ e', (handle py3 context w).1 = Err e'))
  ∧ (∀ ra b,
       router_association_create (bgpvpn_id context)
         (router_resource context) (backend w) = (Ok ra, b) →
       Forall (λ c, is_handle c = false) t
       ∧ (handle py3 context w).1 ≠ Ok false
       ∧ (with_parameters context = false →
          handle py3 context w = (Ok true, World b (calls w ++ [create])))
       ∧ ∀ dict asso_id e b',
           with_parameters context = true →
           ra !! "router_association" = Some dict →
           dict !! "id" = Some asso_id →
           router_association_update (bgpvpn_id context) asso_id
             (advertise_extra_routes context) b = (Err e, b') →
           handle py3 context w
           = (Err (if py3 then TypeError else e),
              World b' (calls w ++
                [create;
                 router_association_update_call (bgpvpn_id context) asso_id
                   (advertise_extra_routes context)]))).
Proof.
  simpl.
  destruct (router_association_create (bgpvpn_id context)
              (router_resource context) (backend w)) as [[ra|e] b] eqn:Hc.
  - destruct (with_parameters context) eqn:Hwith.
    + pose proof (handle_parameters py3 context w ra b Hc Hwith) as Hrun.
      split; [|split; [done|]].
      * rewrite Hrun.
        destruct (ra !! "router_association") as [dict|].
        2:{ exists []. split; [by apply router_new_calls_app|constructor]. }
        destruct (dict !! "id") as [asso_id|].
        2:{ exists []. split; [by apply router_new_calls_app|constructor]. }
        destruct (router_association_update _ _ _ b) as [[[]|e] b'];
          eexists; (split; [by apply router_new_calls_app|by repeat constructor]).
      * intros ra' b0 [= <- <-]. rewrite Hrun.
        split; [|split; [|split; [done|]]].
        -- destruct (ra !! "router_association") as [dict|].
           2:{ rewrite (router_new_calls_app _ _ [_]) by done.
               by repeat constructor. }
           destruct (dict !! "id") as [asso_id|].
           2:{ rewrite (router_new_calls_app _ _ [_]) by done.
               by repeat constructor. }
           destruct (router_association_update _ _ _ b) as [[[]|e] b'];
             rewrite (router_new_calls_app _ _ [_; _]) by done;
             by repeat constructor.
        -- destruct (ra !! "router_association") as [dict|]; [|done].
           destruct (dict !! "id") as [asso_id|]; [|done].
           by destruct (router_association_update _ _ _ b) as [[[]|e] b'].
        -- by intros dict asso_id e b' _ -> -> ->.
    + pose proof (handle_no_parameters py3 context w ra b Hc Hwith) as Hrun.
      rewrite Hrun.
      split; [|split; [done|]].
      * exists []. split; [by apply router_new_calls_app|constructor].
      * intros ra' b0 [= <- <-].
        split; [|split; [done|split; [done|done]]].
        rewrite (router_new_calls_app _ _ [_]) by done. by repeat constructor.
  - pose proof (handle_create_Err py3 context w e b Hc) as Hrun.
    rewrite Hrun.
    split; [|split; [|done]].
    + destruct (exceptions_handle _ b) as [[[]|e'] b']; eexists;
        (split; [by apply router_new_calls_app|by repeat constructor]).
    + intros e0 b0 [= <- <-].
      destruct (exceptions_handle _ b) as [[[]|e'] b'];
        (split; [by apply router_new_calls_app|]); eauto.
Qed.

End workflow.

Lemma router_handle_calls_witness :
  handle true example_context
    (World (Script (Ok created) (Err (ApiError "refused"))) [])
  = (Err TypeError,
     World (Script (Ok created) (Err (ApiError "refused")))
       [router_association_create_call "vpn-1" "router-1";
        router_association_update_call "vpn-1" "asso-1" true])
  ∧ handle false example_context
      (World (Script (Ok created) (Err (ApiError "refused"))) [])
    = (Err (ApiError "refused"),
       World (Script (Ok created) (Err (ApiError "refused")))
         [router_association_create_call "vpn-1" "router-1";
          router_association_update_call "vpn-1" "asso-1" true]).
Proof.
  split.
  - destruct (router_handle_calls true example_context
                (World (Script (Ok created) (Err (ApiError "refused"))) []))
      as (_ & _ & H).
    destruct (H created (Script (Ok created) (Err (ApiError "refused")))
                eq_refl) as (_ & _ & _ & H').
    apply (H' {["id" := "asso-1"]} "asso-1" (ApiError "refused")
              (Script (Ok created) (Err (ApiError "refused"))));
      reflexivity.
  - destruct (router_handle_calls false example_context
                (World (Script (Ok created) (Err (ApiError "refused"))) []))
      as (_ & _ & H).
    destruct (H created (Script (Ok created) (Err (ApiError "refused")))
                eq_refl) as (_ & _ & _ & H').
    apply (H' {["id" := "asso-1"]} "asso-1" (ApiError "refused")
              (Script (Ok created) (Err (ApiError "refused"))));
      reflexivity.
Defined.

End RouterMore.
